(** * monocloud: the tiered cache ([src/lib/redis-cache.ts]) and the
      in-process server cache ([src/lib/cache.ts])

    A shallow embedding of [RedisCache] and [ServerCache].  The Upstash
    client is external: it is a parameter of the development, an arbitrary
    deterministic state machine answering each command with a reply or a
    thrown value.  Every method is a computation in a state-and-exception
    monad over one [world]: the instance fields, the module-level
    [memoryCache], the client's state, the commands sent to it so far, the
    console and browser effects, and the clock read by [Date.now()].

    [await] points are sequenced: a method runs to completion before the next
    one starts.  Browser notifications ([dispatchEvent],
    [localStorage.setItem]) are recorded as effects and do not raise. *)

From Stdlib Require Import ZArith String Ascii List Bool Lia.
From stdpp Require Import base option strings gmap pretty.

Set Warnings "-register-all".
Local Open Scope string_scope.
Local Open Scope Z_scope.

(** ** Values, thrown values, string tests *)

(** Cached data and client replies: JSON-like JavaScript values. *)
Inductive jsval : Type :=
| JUndefined
| JNull
| JBool (b : bool)
| JNum (n : Z)
| JStr (s : string)
| JArr (items : list jsval)
| JObj (fields : list (string * jsval)).

(** [if (data)]: JavaScript truthiness. *)
Definition truthy (v : jsval) : bool :=
  match v with
  | JUndefined | JNull => false
  | JBool b => b
  | JNum n => negb (n =? 0)
  | JStr s => negb (String.eqb s "")
  | JArr _ | JObj _ => true
  end.

(** What a [catch] clause can receive. *)
Inductive thrown : Type :=
| ErrorObject (message : string)   (* [instanceof Error] holds *)
| PlainValue (message : string)    (* not an Error; [.message] reads as this
                                      string, empty when there is none *)
| ThrownNull
| ThrownUndefined.

Definition instanceofError (e : thrown) : bool :=
  match e with ErrorObject _ => true | _ => false end.

(** [haystack.includes(needle)] *)
Fixpoint includes (needle haystack : string) : bool :=
  String.prefix needle haystack
  || match haystack with
     | EmptyString => false
     | String _ rest => includes needle rest
     end.

(** [msg && ...]: a string is truthy when it is not empty. *)
Definition nonempty (s : string) : bool := negb (String.eqb s "").

(** The message tests inlined at the call sites of [redis-cache.ts]. *)
Definition mentions_noperm (m : string) : bool :=
  nonempty m && (includes "NOPERM" m || includes "no permissions" m).

Definition mentions_readonly (m : string) : bool :=
  nonempty m
  && (includes "NOPERM" m || includes "no permissions" m || includes "readonly" m).

Definition mentions_connection (m : string) : bool :=
  nonempty m
  && (includes "connect" m || includes "network" m || includes "timeout" m).

Definition mentions_noperm_keys (m : string) : bool :=
  nonempty m && includes "NOPERM" m && includes "keys" m.

(** [error instanceof Error && error.message && ...] *)
Definition error_with (test : string -> bool) (e : thrown) : bool :=
  match e with
  | ErrorObject m => test m
  | _ => false
  end.

(** ** Outcomes, the client, the world *)

Inductive outcome (A : Type) : Type :=
| Return (a : A)
| Throw (e : thrown).
Arguments Return {A} a.
Arguments Throw {A} e.

(** Commands sent to the persistent tier. *)
Inductive command : Type :=
| GET (key : string)
| EXISTS (key : string)
| KEYS (pattern : string)
| SET (key : string) (data : jsval) (ex : Z)
| DEL (keys : list string).

(** The [@upstash/redis] client, with state [R]. *)
Record Redis (R : Type) : Type := {
  redis_get : string -> R -> outcome jsval * R;
  redis_exists : string -> R -> outcome Z * R;
  redis_keys : string -> R -> outcome (list string) * R;
  redis_set : string -> jsval -> Z -> R -> outcome unit * R;
  redis_del : list string -> R -> outcome Z * R;
}.
Arguments redis_get {R}.
Arguments redis_exists {R}.
Arguments redis_keys {R}.
Arguments redis_set {R}.
Arguments redis_del {R}.

Inductive effect : Type :=
| console_log (args : list string)
| console_error (msg : string) (err : option thrown)
| dispatchEvent (type message : string) (readOnly : option bool)
| localStorage_setItem (key value : string).

(** What [checkRedisConnection] returns. *)
Record capabilities : Type := {
  cap_available : bool;
  cap_readOnly : bool;
  cap_keysCommandAllowed : bool;
  cap_getCommandAllowed : bool;
}.

(** What [getStatus] returns. *)
Record status : Type := {
  available : bool;
  readOnly : bool;
  keysCount : nat;
  memoryKeysCount : nat;
  keysCommandAllowed_ : bool;
  getCommandAllowed_ : bool;
}.

(** ** [src/lib/redis-cache.ts] *)

Module RedisCache.

(** The private fields of a [RedisCache] instance. *)
Record t : Type := {
  prefix : string;
  defaultTTL : Z;
  isRedisAvailable : bool;
  isReadOnly : bool;
  keysCommandAllowed : bool;
  getCommandAllowed : bool;
  lastConnectionCheck : Z;
  connectionCheckInterval : Z;
}.

Record world (R : Type) : Type := {
  this : t;
  memoryCache : gmap string jsval;
  redis : R;
  calls : list command;
  effects : list effect;
  clock : Z;                      (* [Date.now()] *)
  window : bool;                  (* [typeof window !== "undefined"] *)
}.
Arguments this {R}.
Arguments memoryCache {R}.
Arguments redis {R}.
Arguments calls {R}.
Arguments effects {R}.
Arguments clock {R}.
Arguments window {R}.

(** Field assignments. *)
Definition with_isRedisAvailable (b : bool) (c : t) : t :=
  {| prefix := prefix c; defaultTTL := defaultTTL c;
     isRedisAvailable := b; isReadOnly := isReadOnly c;
     keysCommandAllowed := keysCommandAllowed c;
     getCommandAllowed := getCommandAllowed c;
     lastConnectionCheck := lastConnectionCheck c;
     connectionCheckInterval := connectionCheckInterval c |}.

Definition with_isReadOnly (b : bool) (c : t) : t :=
  {| prefix := prefix c; defaultTTL := defaultTTL c;
     isRedisAvailable := isRedisAvailable c; isReadOnly := b;
     keysCommandAllowed := keysCommandAllowed c;
     getCommandAllowed := getCommandAllowed c;
     lastConnectionCheck := lastConnectionCheck c;
     connectionCheckInterval := connectionCheckInterval c |}.

Definition with_keysCommandAllowed (b : bool) (c : t) : t :=
  {| prefix := prefix c; defaultTTL := defaultTTL c;
     isRedisAvailable := isRedisAvailable c; isReadOnly := isReadOnly c;
     keysCommandAllowed := b;
     getCommandAllowed := getCommandAllowed c;
     lastConnectionCheck := lastConnectionCheck c;
     connectionCheckInterval := connectionCheckInterval c |}.

Definition with_getCommandAllowed (b : bool) (c : t) : t :=
  {| prefix := prefix c; defaultTTL := defaultTTL c;
     isRedisAvailable := isRedisAvailable c; isReadOnly := isReadOnly c;
     keysCommandAllowed := keysCommandAllowed c;
     getCommandAllowed := b;
     lastConnectionCheck := lastConnectionCheck c;
     connectionCheckInterval := connectionCheckInterval c |}.

Definition with_lastConnectionCheck (now : Z) (c : t) : t :=
  {| prefix := prefix c; defaultTTL := defaultTTL c;
     isRedisAvailable := isRedisAvailable c; isReadOnly := isReadOnly c;
     keysCommandAllowed := keysCommandAllowed c;
     getCommandAllowed := getCommandAllowed c;
     lastConnectionCheck := now;
     connectionCheckInterval := connectionCheckInterval c |}.

Section Methods.
Context {R : Type} (client : Redis R).

(** *** The monad of method bodies *)

Definition M (A : Type) : Type := world R -> outcome A * world R.

Definition ret {A} (a : A) : M A := fun w => (Return a, w).
Definition throw {A} (e : thrown) : M A := fun w => (Throw e, w).

Definition bind {A B} (m : M A) (k : A -> M B) : M B :=
  fun w =>
    match m w with
    | (Return a, w') => k a w'
    | (Throw e, w') => (Throw e, w')
    end.

(** [try { body } catch (e) { handler }] *)
Definition try_catch {A} (body : M A) (handler : thrown -> M A) : M A :=
  fun w =>
    match body w with
    | (Return a, w') => (Return a, w')
    | (Throw e, w') => handler e w'
    end.

Definition read {A} (f : world R -> A) : M A := fun w => (Return (f w), w).
Definition update (f : world R -> world R) : M unit := fun w => (Return tt, f w).

Definition when (b : bool) (m : M unit) : M unit := if b then m else ret tt.

Notation "x <- m ;; k" := (bind m (fun x => k))
  (at level 100, m at next level, right associativity).
Notation "m ;; k" := (bind m (fun _ => k))
  (at level 100, right associativity).

Definition on_this (f : t -> t) : M unit :=
  update (fun w =>
    {| this := f (this w); memoryCache := memoryCache w; redis := redis w;
       calls := calls w; effects := effects w; clock := clock w;
       window := window w |}).

Definition on_memoryCache (f : gmap string jsval -> gmap string jsval) : M unit :=
  update (fun w =>
    {| this := this w; memoryCache := f (memoryCache w); redis := redis w;
       calls := calls w; effects := effects w; clock := clock w;
       window := window w |}).

Definition emit (e : effect) : M unit :=
  update (fun w =>
    {| this := this w; memoryCache := memoryCache w; redis := redis w;
       calls := calls w; effects := effects w ++ [e]; clock := clock w;
       window := window w |}).

(** One request to the client: the command is recorded, the client moves to
    its next state, and its answer is returned or raised. *)
Definition request {A} (c : command) (run : R -> outcome A * R) : M A :=
  fun w =>
    let (answer, r') := run (redis w) in
    (answer,
     {| this := this w; memoryCache := memoryCache w; redis := r';
        calls := calls w ++ [c]; effects := effects w; clock := clock w;
        window := window w |}).

Definition redis_GET (key : string) : M jsval :=
  request (GET key) (redis_get client key).
Definition redis_EXISTS (key : string) : M Z :=
  request (EXISTS key) (redis_exists client key).
Definition redis_KEYS (pattern : string) : M (list string) :=
  request (KEYS pattern) (redis_keys client pattern).
Definition redis_SET (key : string) (data : jsval) (ex : Z) : M unit :=
  request (SET key data ex) (redis_set client key data ex).
Definition redis_DEL (keys : list string) : M Z :=
  request (DEL keys) (redis_del client keys).

(** [e.message] on a caught value; reading a property of [null] or
    [undefined] raises a TypeError. *)
Definition message_of (e : thrown) : M string :=
  match e with
  | ErrorObject m | PlainValue m => ret m
  | ThrownNull =>
      throw (ErrorObject "Cannot read properties of null (reading 'message')")
  | ThrownUndefined =>
      throw (ErrorObject "Cannot read properties of undefined (reading 'message')")
  end.

(** [JSON.parse(JSON.stringify(data))]: [JSON.stringify(undefined)] is
    [undefined], which [JSON.parse] rejects with a SyntaxError; every other
    value of [jsval] serializes. *)
Definition JSON_roundtrip (data : jsval) : M unit :=
  match data with
  | JUndefined => throw (ErrorObject "Unexpected token u in JSON at position 0")
  | _ => ret tt
  end.

(** The client-side notifications of the catch blocks. *)
Definition notify_error (error : thrown) : M unit :=
  has_window <- read window ;;
  when has_window
    (message <- message_of error ;;
     emit (dispatchEvent "redis-error" message None) ;;
     emit (localStorage_setItem "monocloud:redis:errors" "true")).

Definition notify_readonly : M unit :=
  has_window <- read window ;;
  when has_window
    (emit (dispatchEvent "redis-error" "Redis is in read-only mode" (Some true)) ;;
     emit (localStorage_setItem "monocloud:redis:errors" "true") ;;
     emit (localStorage_setItem "monocloud:redis:readonly" "true")).

Definition getFullKey (key : string) : M string :=
  c <- read this ;; ret (prefix c +:+ key).

Definition current_capabilities : M capabilities :=
  c <- read this ;;
  ret {| cap_available := isRedisAvailable c;
         cap_readOnly := isReadOnly c;
         cap_keysCommandAllowed := keysCommandAllowed c;
         cap_getCommandAllowed := getCommandAllowed c |}.

(** [checkRedisConnection] (lines 33-170), block by block. *)

(** "First try a read operation with GET" (lines 57-73). *)
Definition probe_get (testReadKey : string) : M unit :=
  try_catch
    (redis_GET testReadKey ;;
     on_this (with_getCommandAllowed true) ;;
     on_this (with_isRedisAvailable true))
    (fun getError =>
       m <- message_of getError ;;
       if mentions_noperm m then
         emit (console_log ["[RedisCache] GET command not permitted:"; m]) ;;
         on_this (with_getCommandAllowed false) ;;
         on_this (with_isRedisAvailable false)
       else
         on_this (with_getCommandAllowed true) ;;
         on_this (with_isRedisAvailable true)).

(** "Check if EXISTS command is allowed" (lines 75-91). *)
Definition probe_exists (testReadKey : string) : M unit :=
  reachable <- read (fun w => isRedisAvailable (this w)) ;;
  when reachable
    (try_catch
       (redis_EXISTS testReadKey ;; ret tt)
       (fun existsError =>
          m <- message_of existsError ;;
          if mentions_noperm m then
            emit (console_log ["[RedisCache] EXISTS command not permitted:"; m])
          else
            emit (console_error "[RedisCache] Error checking EXISTS:"
                    (Some existsError)))).

(** "Check if KEYS command is allowed" (lines 93-108). *)
Definition probe_keys (pattern : string) : M unit :=
  try_catch
    (redis_KEYS pattern ;;
     on_this (with_keysCommandAllowed true))
    (fun keysError =>
       m <- message_of keysError ;;
       if mentions_noperm m then
         emit (console_log ["[RedisCache] KEYS command not permitted:"; m]) ;;
         on_this (with_keysCommandAllowed false)
       else
         emit (console_error "[RedisCache] Error checking KEYS:" (Some keysError))).

(** "Now try a write operation" (lines 110-145). *)
Definition probe_write (testWriteKey : string) : M unit :=
  try_catch
    (redis_SET testWriteKey (JStr "test") 10 ;;
     redis_DEL [testWriteKey] ;;
     on_this (with_isReadOnly false) ;;
     emit (console_log
             ["[RedisCache] Redis connection test successful with read-write permissions"]))
    (fun writeError =>
       m <- message_of writeError ;;
       if mentions_readonly m then
         on_this (with_isReadOnly true) ;;
         emit (console_log ["[RedisCache] Redis is in read-only mode:"; m]) ;;
         notify_readonly
       else
         emit (console_error "[RedisCache] Redis write test failed:"
                 (Some writeError)) ;;
         on_this (with_isReadOnly true)).

(** "Complete connection failure" (lines 146-162). *)
Definition connection_failed (error : thrown) : M unit :=
  emit (console_error "[RedisCache] Redis connection test failed:" (Some error)) ;;
  on_this (with_isRedisAvailable false) ;;
  on_this (with_isReadOnly true) ;;
  on_this (with_keysCommandAllowed false) ;;
  on_this (with_getCommandAllowed false) ;;
  notify_error error.

Definition checkRedisConnection : M capabilities :=
  now <- read clock ;;
  c <- read this ;;
  if now - lastConnectionCheck c <? connectionCheckInterval c then
    current_capabilities
  else
    on_this (with_lastConnectionCheck now) ;;
    try_catch
      (probe_get (prefix c +:+ "_connection_test_readonly") ;;
       probe_exists (prefix c +:+ "_connection_test_readonly") ;;
       probe_keys (prefix c +:+ "_test_keys_*") ;;
       probe_write (prefix c +:+ "_connection_test_write"))
      connection_failed ;;
    current_capabilities.

(** [get] (lines 172-227).  The [try] block yields [Some data] where the
    source returns from inside it, [None] where control falls through to the
    final [return null]. *)
Definition get (key : string) : M jsval :=
  mem <- read memoryCache ;;
  match mem !! key with
  | Some v =>
      emit (console_log ["[RedisCache] Using memory cache for key: " +:+ key]) ;;
      ret v
  | None =>
      c <- read this ;;
      found <-
        (if isRedisAvailable c && getCommandAllowed c then
           try_catch
             (fullKey <- getFullKey key ;;
              emit (console_log ["[RedisCache] Fetching from Redis: " +:+ fullKey]) ;;
              data <- redis_GET fullKey ;;
              if truthy data then
                emit (console_log ["[RedisCache] Redis cache hit for key: " +:+ key]) ;;
                on_memoryCache (insert key data) ;;
                ret (Some data)
              else
                emit (console_log ["[RedisCache] Redis cache miss for key: " +:+ key]) ;;
                ret None)
             (fun error =>
                emit (console_error
                        ("[RedisCache] Error reading from Redis for key " +:+ key +:+ ":")
                        (Some error)) ;;
                (if error_with mentions_noperm error then
                   on_this (with_getCommandAllowed false) ;;
                   m <- message_of error ;;
                   emit (console_log ["[RedisCache] GET command not permitted:"; m])
                 else if error_with mentions_connection error then
                   on_this (with_isRedisAvailable false) ;;
                   notify_error error
                 else ret tt) ;;
                ret None)
         else if negb (getCommandAllowed c) then
           emit (console_log
                   ["[RedisCache] GET command not permitted, skipping Redis fetch for key: "
                    +:+ key]) ;;
           ret None
         else
           emit (console_log
                   ["[RedisCache] Redis unavailable, skipping fetch for key: " +:+ key]) ;;
           ret None) ;;
      match found with
      | Some data => ret data
      | None => ret JNull
      end
  end.

(** [set] (lines 229-309); [ttl = None] is a call without the third
    argument. *)
Definition set (key : string) (data : jsval) (ttl : option Z) : M bool :=
  c0 <- read this ;;
  let ttl := default (defaultTTL c0) ttl in
  on_memoryCache (insert key data) ;;
  emit (console_log ["[RedisCache] Set in memory cache for key: " +:+ key]) ;;
  c <- read this ;;
  if isRedisAvailable c && negb (isReadOnly c) then
    try_catch
      (fullKey <- getFullKey key ;;
       emit (console_log
               ["[RedisCache] Setting in Redis: " +:+ fullKey +:+ ", expires in "
                +:+ pretty ttl +:+ " seconds"]) ;;
       JSON_roundtrip data ;;
       redis_SET fullKey data ttl ;;
       verify <- read (fun w => getCommandAllowed (this w)) ;;
       if verify then
         verifyData <- redis_GET fullKey ;;
         if truthy verifyData then
           emit (console_log
                   ["[RedisCache] Verified data stored in Redis for key: " +:+ key]) ;;
           ret true
         else
           emit (console_error
                   ("[RedisCache] Failed to verify data in Redis for key: " +:+ key)
                   None) ;;
           ret false
       else ret true)
      (fun error =>
         emit (console_error
                 ("[RedisCache] Error writing to Redis for key " +:+ key +:+ ":")
                 (Some error)) ;;
         (if error_with mentions_readonly error then
            on_this (with_isReadOnly true) ;;
            m <- message_of error ;;
            emit (console_log ["[RedisCache] Redis is in read-only mode:"; m]) ;;
            notify_readonly
          else if error_with mentions_connection error then
            on_this (with_isRedisAvailable false) ;;
            notify_error error
          else ret tt) ;;
         ret false)
  else if isReadOnly c then
    emit (console_log
            ["[RedisCache] Redis is in read-only mode, using memory cache only for key: "
             +:+ key]) ;;
    ret true
  else
    emit (console_log
            ["[RedisCache] Redis unavailable, using memory cache only for key: "
             +:+ key]) ;;
    ret true.

(** [has] (lines 311-329). *)
Definition has (key : string) : M bool :=
  mem <- read memoryCache ;;
  match mem !! key with
  | Some _ => ret true
  | None =>
      c <- read this ;;
      if isRedisAvailable c then
        try_catch
          (fullKey <- getFullKey key ;;
           n <- redis_EXISTS fullKey ;;
           ret (n =? 1))
          (fun error =>
             emit (console_error
                     ("[RedisCache] Error checking Redis for key " +:+ key +:+ ":")
                     (Some error)) ;;
             ret false)
      else ret false
  end.

(** [delete] (lines 331-361). *)
Definition delete (key : string) : M bool :=
  on_memoryCache (base.delete key) ;;
  emit (console_log ["[RedisCache] Deleted from memory cache: " +:+ key]) ;;
  c <- read this ;;
  if isRedisAvailable c && negb (isReadOnly c) then
    try_catch
      (fullKey <- getFullKey key ;;
       redis_DEL [fullKey] ;;
       emit (console_log ["[RedisCache] Deleted from Redis: " +:+ fullKey]) ;;
       ret true)
      (fun error =>
         emit (console_error
                 ("[RedisCache] Error deleting from Redis for key " +:+ key +:+ ":")
                 (Some error)) ;;
         when (error_with mentions_readonly error) (on_this (with_isReadOnly true)) ;;
         ret false)
  else ret true.

(** [clear] (lines 363-409); [pattern = None] is a call without argument,
    and an empty pattern is falsy like a missing one. *)
Definition clear (pattern : option string) : M bool :=
  on_memoryCache (fun _ => ∅) ;;
  emit (console_log ["[RedisCache] Cleared memory cache"]) ;;
  c <- read this ;;
  if isRedisAvailable c && negb (isReadOnly c) && keysCommandAllowed c then
    try_catch
      (fullPattern <-
         match pattern with
         | Some p => if nonempty p then getFullKey p else ret (prefix c +:+ "*")
         | None => ret (prefix c +:+ "*")
         end ;;
       emit (console_log ["[RedisCache] Clearing Redis with pattern: " +:+ fullPattern]) ;;
       keys <- redis_KEYS fullPattern ;;
       emit (console_log
               ["[RedisCache] Found " +:+ pretty (length keys) +:+ " keys to clear"]) ;;
       when (0 <? Z.of_nat (length keys))
         (redis_DEL keys ;;
          emit (console_log
                  ["[RedisCache] Cleared " +:+ pretty (length keys)
                   +:+ " keys from Redis"])) ;;
       ret true)
      (fun error =>
         emit (console_error "[RedisCache] Error clearing Redis:" (Some error)) ;;
         (if error_with mentions_noperm_keys error then
            on_this (with_keysCommandAllowed false) ;;
            m <- message_of error ;;
            emit (console_log ["[RedisCache] KEYS command not permitted:"; m])
          else
            when (error_with mentions_readonly error)
              (on_this (with_isReadOnly true))) ;;
         ret false)
  else if negb (keysCommandAllowed c) then
    emit (console_log
            ["[RedisCache] KEYS command not permitted, only cleared memory cache"]) ;;
    ret true
  else ret true.

(** [getStatus] (lines 412-451). *)
Definition getStatus : M status :=
  checkRedisConnection ;;
  c <- read this ;;
  keysCount <-
    (if isRedisAvailable c && keysCommandAllowed c then
       try_catch
         (keys <- redis_KEYS (prefix c +:+ "*") ;;
          ret (length keys))
         (fun error =>
            emit (console_error "Error checking Redis keys count:" (Some error)) ;;
            when (error_with mentions_noperm_keys error)
              (on_this (with_keysCommandAllowed false) ;;
               m <- message_of error ;;
               emit (console_log ["[RedisCache] KEYS command not permitted:"; m])) ;;
            ret 0%nat)
     else ret 0%nat) ;;
  mem <- read memoryCache ;;
  c' <- read this ;;
  ret {| available := isRedisAvailable c';
         readOnly := isReadOnly c';
         keysCount := keysCount;
         memoryKeysCount := size mem;
         keysCommandAllowed_ := keysCommandAllowed c';
         getCommandAllowed_ := getCommandAllowed c' |}.

(** *** Specifications of method bodies

    [wp m Q E w]: run from [w], [m] either returns [a] in a world satisfying
    [Q a] or raises [e] in a world satisfying [E e]. *)
Definition wp {A} (m : M A) (Q : A -> world R -> Prop)
    (E : thrown -> world R -> Prop) (w : world R) : Prop :=
  match m w with
  | (Return a, w') => Q a w'
  | (Throw e, w') => E e w'
  end.

(** The world after one request to the client. *)
Definition sent (c : command) (r' : R) (w : world R) : world R :=
  {| this := this w; memoryCache := memoryCache w; redis := r';
     calls := calls w ++ [c]; effects := effects w; clock := clock w;
     window := window w |}.

(** No exception escapes. *)
Definition never (_ : thrown) (_ : world R) : Prop := False.

End Methods.

(** The field initializers and the constructor's assignments (lines 13-24). *)
Definition fresh (prefix : string) (defaultTTL : Z) : t :=
  {| prefix := prefix; defaultTTL := defaultTTL;
     isRedisAvailable := true; isReadOnly := false;
     keysCommandAllowed := true; getCommandAllowed := true;
     lastConnectionCheck := 0; connectionCheckInterval := 60000 |}.

(** The module once loaded (lines 4-10) and the fields of an instance set:
    an empty [memoryCache], the client in state [r], nothing sent or logged
    yet. *)
Definition initial {R : Type} (c : t) (r : R) (now : Z) (in_browser : bool) : world R :=
  {| this := c; memoryCache := ∅; redis := r; calls := []; effects := [];
     clock := now; window := in_browser |}.

(** [new RedisCache(prefix, defaultTTL)] (lines 22-26): the constructor
    starts the first probe. *)
Definition new {R : Type} (client : Redis R)
    (prefix : option string) (defaultTTL : option Z)
    (r : R) (now : Z) (in_browser : bool) : outcome capabilities * world R :=
  checkRedisConnection client
    (initial (fresh (default "monocloud:" prefix)
                    (default (60 * 60 * 24) defaultTTL))
             r now in_browser).

(** Time passing between two calls. *)
Definition advance {R : Type} (dt : Z) (w : world R) : world R :=
  {| this := this w; memoryCache := memoryCache w; redis := redis w;
     calls := calls w; effects := effects w; clock := clock w + dt;
     window := window w |}.

End RedisCache.

(** ** [src/lib/cache.ts] *)

Module ServerCache.

Record CacheEntry : Type := {
  data : jsval;
  timestamp : Z;
  expiresAt : Z;
}.

Record t : Type := {
  cache : gmap string CacheEntry;
  defaultTTL : Z;
}.

(** [new ServerCache()]: an empty map, one hour in milliseconds. *)
Definition new : t := {| cache := ∅; defaultTTL := 1000 * 60 * 60 |}.

Definition with_cache (m : gmap string CacheEntry) (c : t) : t :=
  {| cache := m; defaultTTL := defaultTTL c |}.

(** Every method takes the value [now] that [Date.now()] yields in it. *)
Definition get (now : Z) (key : string) (c : t) : jsval * t :=
  match cache c !! key with
  | None => (JNull, c)
  | Some entry =>
      if expiresAt entry <? now
      then (JNull, with_cache (base.delete key (cache c)) c)
      else (data entry, c)
  end.

Definition set (now : Z) (key : string) (d : jsval) (ttl : option Z) (c : t) : t :=
  let ttl := default (defaultTTL c) ttl in
  with_cache
    (<[key := {| data := d; timestamp := now; expiresAt := now + ttl |}]> (cache c)) c.

Definition has (now : Z) (key : string) (c : t) : bool :=
  match cache c !! key with
  | None => false
  | Some entry => now <=? expiresAt entry
  end.

Definition delete (key : string) (c : t) : t :=
  with_cache (base.delete key (cache c)) c.

Definition clear (c : t) : t := with_cache ∅ c.

Definition cleanup (now : Z) (c : t) : t :=
  with_cache (filter (fun kv => ¬ (expiresAt (snd kv) < now)) (cache c)) c.

End ServerCache.

(** ** Test doubles for the persistent tier *)

Module Double.

(** An in-memory store with a script per command: each call consumes the
    head of its command's script; [Some e] makes the call raise [e], [None]
    or an exhausted script lets it act on the store. *)
Record t : Type := {
  store : gmap string jsval;
  get_script : list (option thrown);
  exists_script : list (option thrown);
  keys_script : list (option thrown);
  set_script : list (option thrown);
  del_script : list (option thrown);
}.

(** Glob matching restricted to a literal with an optional final [*]. *)
Fixpoint glob (pattern key : string) : bool :=
  match pattern with
  | EmptyString => String.eqb key ""
  | String c rest =>
      if Ascii.eqb c "*" && String.eqb rest "" then true
      else match key with
           | EmptyString => false
           | String d key' => Ascii.eqb c d && glob rest key'
           end
  end.

Definition get (key : string) (r : t) : outcome jsval * t :=
  let r' := {| store := store r; get_script := tail (get_script r);
               exists_script := exists_script r; keys_script := keys_script r;
               set_script := set_script r; del_script := del_script r |} in
  match get_script r with
  | Some e :: _ => (Throw e, r')
  | _ => (Return (default JNull (store r !! key)), r')
  end.

Definition exists_ (key : string) (r : t) : outcome Z * t :=
  let r' := {| store := store r; get_script := get_script r;
               exists_script := tail (exists_script r);
               keys_script := keys_script r;
               set_script := set_script r; del_script := del_script r |} in
  match exists_script r with
  | Some e :: _ => (Throw e, r')
  | _ => (Return (match store r !! key with Some _ => 1 | None => 0 end), r')
  end.

Definition keys (pattern : string) (r : t) : outcome (list string) * t :=
  let r' := {| store := store r; get_script := get_script r;
               exists_script := exists_script r;
               keys_script := tail (keys_script r);
               set_script := set_script r; del_script := del_script r |} in
  match keys_script r with
  | Some e :: _ => (Throw e, r')
  | _ => (Return (List.filter (glob pattern) (map fst (map_to_list (store r)))), r')
  end.

Definition set (key : string) (d : jsval) (ex : Z) (r : t) : outcome unit * t :=
  match set_script r with
  | Some e :: rest =>
      (Throw e,
       {| store := store r; get_script := get_script r;
          exists_script := exists_script r; keys_script := keys_script r;
          set_script := rest; del_script := del_script r |})
  | _ =>
      (Return tt,
       {| store := <[key := d]> (store r); get_script := get_script r;
          exists_script := exists_script r; keys_script := keys_script r;
          set_script := tail (set_script r); del_script := del_script r |})
  end.

Definition del (ks : list string) (r : t) : outcome Z * t :=
  match del_script r with
  | Some e :: rest =>
      (Throw e,
       {| store := store r; get_script := get_script r;
          exists_script := exists_script r; keys_script := keys_script r;
          set_script := set_script r; del_script := rest |})
  | _ =>
      (Return (Z.of_nat (length (List.filter
                 (fun k => match store r !! k with Some _ => true | None => false end)
                 ks))),
       {| store := foldr base.delete (store r) ks; get_script := get_script r;
          exists_script := exists_script r; keys_script := keys_script r;
          set_script := set_script r; del_script := tail (del_script r) |})
  end.

Definition client : Redis t :=
  {| redis_get := get; redis_exists := exists_; redis_keys := keys;
     redis_set := set; redis_del := del |}.

(** An empty store that answers every command. *)
Definition healthy : t :=
  {| store := ∅; get_script := []; exists_script := []; keys_script := [];
     set_script := []; del_script := [] |}.

End Double.

(** ** Scenarios

    Concrete doubles and the worlds they lead to; [redisCache], the exported
    singleton, is [new RedisCache()] on a server. *)

Module Scenario.

Definition T0 : Z := 1700000000000.

(** [export const redisCache = new RedisCache()] (line 455), loaded at [T0]
    outside a browser against the double [r]. *)
Definition redisCache (r : Double.t) : RedisCache.world Double.t :=
  snd (RedisCache.new Double.client None None r T0 false).

Definition fetch_failed : thrown := ErrorObject "fetch failed".

Definition timed_out : thrown :=
  ErrorObject "The operation was aborted due to timeout".

Definition connect_timeout : thrown :=
  ErrorObject "connect ETIMEDOUT 203.0.113.7:443".

Definition noperm (cmd : string) : thrown :=
  ErrorObject
    ("NOPERM this user has no permissions to run the '" +:+ cmd +:+ "' command").

(** The probe's write cycle passes, the next write raises. *)
Definition write_fails_once (e : thrown) : Double.t :=
  {| Double.store := ∅; Double.get_script := []; Double.exists_script := [];
     Double.keys_script := []; Double.set_script := [None; Some e];
     Double.del_script := [] |}.

(** Every write is refused: a read-only token. *)
Definition read_only_token : Double.t :=
  {| Double.store := ∅; Double.get_script := []; Double.exists_script := [];
     Double.keys_script := [];
     Double.set_script := [Some (noperm "set"); Some (noperm "set")];
     Double.del_script := [Some (noperm "del")] |}.

(** The probe's read passes, the next read raises, later reads pass. *)
Definition read_fails_once (e : thrown) : Double.t :=
  {| Double.store := ∅; Double.get_script := [None; Some e];
     Double.exists_script := []; Double.keys_script := [];
     Double.set_script := []; Double.del_script := [] |}.

(** The first probe is refused its read, the second probe reads, and the
    read after that times out. *)
Definition refused_then_timed_out : Double.t :=
  {| Double.store := ∅;
     Double.get_script := [Some (noperm "get"); None; Some timed_out];
     Double.exists_script := []; Double.keys_script := [];
     Double.set_script := []; Double.del_script := [] |}.

(** The store cannot be reached at all while the first probe runs. *)
Definition unreachable : Double.t :=
  {| Double.store := ∅;
     Double.get_script := [Some connect_timeout];
     Double.exists_script := [Some connect_timeout];
     Double.keys_script := [Some connect_timeout];
     Double.set_script := [Some connect_timeout];
     Double.del_script := [Some connect_timeout] |}.

(** Key enumeration is refused. *)
Definition keys_refused : Double.t :=
  {| Double.store := ∅; Double.get_script := []; Double.exists_script := [];
     Double.keys_script := [Some (noperm "keys")];
     Double.set_script := []; Double.del_script := [] |}.

End Scenario.

(** ** Callers of the caches *)

(** The monad notation of [RedisCache], for the modules below. *)
Module RedisCacheNotations.
Notation "x <- m ;; k" := (RedisCache.bind m (fun x => k))
  (at level 100, m at next level, right associativity).
Notation "m ;; k" := (RedisCache.bind m (fun _ => k))
  (at level 100, right associativity).
End RedisCacheNotations.

(** [NextResponse.json(body, { status })]; the status is 200 when omitted. *)
Record NextResponse : Type := {
  status_code : Z;
  json : jsval;
}.

(** [key.startsWith("monocloud:") ? key : `monocloud:${key}`], as the admin
    routes name a key of the persistent tier. *)
Definition admin_full_key (key : string) : string :=
  if String.prefix "monocloud:" key then key else "monocloud:" +:+ key.

(** *** [src/app/actions.ts] *)

Module Actions.
Import RedisCache RedisCacheNotations.

(** [RepositoryAnalysisResponse]: [{ success: true, data, fromCache }] or
    [{ success: false, error }]. *)
Inductive RepositoryAnalysisResponse : Type :=
| Analysis (data : jsval) (fromCache : bool)
| Failure (error : string).

Section Action.
Context {R : Type} (client : Redis R).
(** [String.prototype.toLowerCase] and [String.prototype.trim]. *)
Context (toLowerCase trim : string -> string).
(** What [await analyzeMonorepo(repoUrl)] ([src/lib/github.ts], requests to
    the GitHub API) yields in this call. *)
Context (analyzeMonorepo : string -> outcome jsval).

Definition cacheKey (repoUrl : string) : string :=
  "repo:" +:+ trim (toLowerCase repoUrl).

Definition analyzeRepository (repoUrl : string) : M (R := R) RepositoryAnalysisResponse :=
  try_catch
    (emit (console_log
             ["[Action] Analyzing repository: " +:+ repoUrl +:+ ", cache key: "
              +:+ cacheKey repoUrl]) ;;
     cachedResult <- get client (cacheKey repoUrl) ;;
     if truthy cachedResult then
       emit (console_log ["[Action] Using cached result for " +:+ repoUrl]) ;;
       ret (Analysis cachedResult true)
     else
       emit (console_log ["[Action] No cached result found for " +:+ repoUrl]) ;;
       emit (console_log ["[Action] Performing analysis for repository: " +:+ repoUrl]) ;;
       result <- (fun w => (analyzeMonorepo repoUrl, w)) ;;
       try_catch
         (emit (console_log ["[Action] Saving result to cache for " +:+ repoUrl]) ;;
          saved <- set client (cacheKey repoUrl) result None ;;
          emit (console_log
                  ["[Action] Cache save result: "
                   +:+ (if saved : bool then "success" else "failed")]))
         (fun cacheError =>
            emit (console_error "[Action] Error saving to cache:" (Some cacheError))) ;;
       ret (Analysis result false))
    (fun error =>
       emit (console_error "[Action] Error in analyzeRepository:" (Some error)) ;;
       ret (Failure match error with
                    | ErrorObject message => message
                    | _ => "Failed to analyze repository"
                    end)).

End Action.
End Actions.

(** *** [src/app/api/cache/clear/route.ts] *)

Module CacheClearRoute.
Import RedisCache RedisCacheNotations.

Section Route.
Context {R : Type} (client : Redis R).

(** [authorization] is the request header, [ADMIN_API_KEY] the environment
    variable (the template prints a missing one as [undefined]), and [body]
    what [await req.json()] and the reading of its [pattern] yield: a string,
    none, or an exception. *)
Definition POST (authorization ADMIN_API_KEY : option string)
    (body : outcome (option string)) : M (R := R) NextResponse :=
  try_catch
    (if negb (bool_decide
                (authorization = Some ("Bearer " +:+ default "undefined" ADMIN_API_KEY)))
     then
       ret {| status_code := 401; json := JObj [("error", JStr "Unauthorized")] |}
     else
       pattern <- (fun w => (body, w)) ;;
       st <- getStatus client ;;
       if readOnly st then
         ret {| status_code := 403;
                json := JObj
                  [("error", JStr "Redis is in read-only mode");
                   ("message",
                    JStr "Cannot clear Redis cache in read-only mode. Memory cache was cleared.")] |}
       else
         result <- clear client pattern ;;
         ret {| status_code := 200;
                json := JObj
                  [("success", JBool result);
                   ("message",
                    JStr (if result then "Cache cleared successfully"
                          else "Failed to clear Redis cache, but memory cache was cleared"))] |})
    (fun error =>
       emit (console_error "Error clearing cache:" (Some error)) ;;
       ret {| status_code := 500; json := JObj [("error", JStr "Failed to clear cache")] |}).

End Route.
End CacheClearRoute.

(** *** [src/app/api/redis/clear-cache/route.ts], lines 57-110 (lines 1-55
    are the same route with its comments in Spanish) *)

Module ClearCacheRoute.
Import RedisCache RedisCacheNotations.

Definition isAuthenticated : bool := true.

Section Route.
Context {R : Type} (client : Redis R).

Definition POST (body : outcome (option string)) : M (R := R) NextResponse :=
  try_catch
    (if negb isAuthenticated then
       ret {| status_code := 401; json := JObj [("error", JStr "Unauthorized")] |}
     else
       pattern <- (fun w => (body, w)) ;;
       st <- getStatus client ;;
       if readOnly st then
         ret {| status_code := 403;
                json := JObj
                  [("error", JStr "Redis is in read-only mode");
                   ("message",
                    JStr "Cannot clear Redis cache in read-only mode. Memory cache was cleared.")] |}
       else if negb (keysCommandAllowed_ st) then
         clear client None ;;
         ret {| status_code := 200;
                json := JObj
                  [("success", JBool true);
                   ("message",
                    JStr "KEYS command not permitted. Only memory cache was cleared.");
                   ("keysCommandAllowed", JBool false)] |}
       else
         result <- clear client pattern ;;
         ret {| status_code := 200;
                json := JObj
                  [("success", JBool result);
                   ("message",
                    JStr (if result then "Cache cleared successfully"
                          else "Failed to clear Redis cache, but memory cache was cleared"))] |})
    (fun error =>
       emit (console_error "Error clearing cache:" (Some error)) ;;
       ret {| status_code := 500; json := JObj [("error", JStr "Failed to clear cache")] |}).

End Route.
End ClearCacheRoute.

(** *** [src/app/api/redis/key/route.ts]

    The route talks to the persistent tier through a client of its own,
    configured like the cache's: both reach the same store. *)

Module KeyRoute.
Import RedisCache RedisCacheNotations.

Section Route.
Context {R : Type} (client : Redis R).

(** [key] is [searchParams.get("key")]. *)
Definition GET (key : option string) : M (R := R) NextResponse :=
  try_catch
    (match key with
     | Some k =>
         if nonempty k then
           value <- redis_GET client (admin_full_key k) ;;
           ret {| status_code := 200;
                  json := JObj [("key", JStr k); ("value", value)] |}
         else
           ret {| status_code := 400;
                  json := JObj [("error", JStr "Key parameter is required")] |}
     | None =>
         ret {| status_code := 400;
                json := JObj [("error", JStr "Key parameter is required")] |}
     end)
    (fun error =>
       emit (console_error "Error getting Redis key:" (Some error)) ;;
       ret {| status_code := 500;
              json := JObj [("error", JStr "Failed to get Redis key value")] |}).

(** [body] is what [await req.json()] and the reading of its [key] yield. *)
Definition DELETE (body : outcome (option string)) : M (R := R) NextResponse :=
  try_catch
    (key <- (fun w => (body, w)) ;;
     match key with
     | Some k =>
         if nonempty k then
           redis_DEL client [admin_full_key k] ;;
           ret {| status_code := 200;
                  json := JObj
                    [("success", JBool true);
                     ("message", JStr ("Key " +:+ k +:+ " deleted successfully"))] |}
         else
           ret {| status_code := 400; json := JObj [("error", JStr "Key is required")] |}
     | None =>
         ret {| status_code := 400; json := JObj [("error", JStr "Key is required")] |}
     end)
    (fun error =>
       emit (console_error "Error deleting Redis key:" (Some error)) ;;
       ret {| status_code := 500;
              json := JObj [("error", JStr "Failed to delete Redis key")] |}).

End Route.
End KeyRoute.

(** *** [src/app/api/redis/clear-cache/route.ts], lines 112-183: the
    validation of stored audio *)

Module ValidateRoute.
Import RedisCache.

Record results : Type := {
  total : nat;
  valid : nat;
  invalid : nat;
  cleaned : nat;
  errors : nat;
  invalidKeys : list string;
}.

Inductive reply : Type :=
| Validated (message : string) (res : results)   (* status 200, success: true *)
| Failed.                                        (* status 500 *)

(** The class [[A-Za-z0-9+/=]]. *)
Definition base64_char (c : ascii) : bool :=
  let n := nat_of_ascii c in
  ((65 <=? n) && (n <=? 90) || (97 <=? n) && (n <=? 122)
   || (48 <=? n) && (n <=? 57) || (n =? 43) || (n =? 47) || (n =? 61))%nat.

Fixpoint every (p : ascii -> bool) (s : string) : bool :=
  match s with
  | EmptyString => true
  | String c rest => p c && every p rest
  end.

(** [/^[A-Za-z0-9+/=]+$/.test(s)] *)
Definition base64_test (s : string) : bool := nonempty s && every base64_char s.

(** "Basic validation" (lines 142-154).  The tests read the first hundred
    characters only and ask for more than a hundred: on byte strings they
    decide the same as on UTF-16 code units. *)
Definition isValid (value : jsval) : bool :=
  match value with
  | JStr s =>
      String.prefix "data:audio/" s
      || String.prefix "data:application/octet-stream" s
      || (100 <? String.length s)%nat && base64_test (substring 0 100 s)
  | _ => false
  end.

Section Route.
Context {R : Type} (client : Redis R).

(** The loop mutates [results] in place, so the counts made before a request
    raises stay made: method bodies with [results] as a second state. *)
Definition N (A : Type) : Type := results -> world R -> outcome A * results * world R.

Definition nret {A} (a : A) : N A := fun res w => (Return a, res, w).

Definition nbind {A B} (m : N A) (k : A -> N B) : N B :=
  fun res w =>
    match m res w with
    | (Return a, res', w') => k a res' w'
    | (Throw e, res', w') => (Throw e, res', w')
    end.

Definition ntry {A} (body : N A) (handler : thrown -> N A) : N A :=
  fun res w =>
    match body res w with
    | (Return a, res', w') => (Return a, res', w')
    | (Throw e, res', w') => handler e res' w'
    end.

Definition lift {A} (m : M A) : N A :=
  fun res w => let (o, w') := m w in (o, res, w').

Definition modify (f : results -> results) : N unit :=
  fun res w => (Return tt, f res, w).

Notation "x <- m ;; k" := (nbind m (fun x => k))
  (at level 100, m at next level, right associativity).
Notation "m ;; k" := (nbind m (fun _ => k))
  (at level 100, right associativity).

Definition count_valid (res : results) : results :=
  {| total := total res; valid := S (valid res); invalid := invalid res;
     cleaned := cleaned res; errors := errors res; invalidKeys := invalidKeys res |}.

(** [results.invalid++; results.invalidKeys.push(key)] *)
Definition count_invalid (key : string) (res : results) : results :=
  {| total := total res; valid := valid res; invalid := S (invalid res);
     cleaned := cleaned res; errors := errors res;
     invalidKeys := invalidKeys res ++ [key] |}.

Definition count_cleaned (res : results) : results :=
  {| total := total res; valid := valid res; invalid := invalid res;
     cleaned := S (cleaned res); errors := errors res;
     invalidKeys := invalidKeys res |}.

Definition count_error (res : results) : results :=
  {| total := total res; valid := valid res; invalid := invalid res;
     cleaned := cleaned res; errors := S (errors res);
     invalidKeys := invalidKeys res |}.

(** The body of [for (const key of keys)] (lines 136-166). *)
Definition check (key : string) : N unit :=
  ntry
    (value <- lift (redis_GET client key) ;;
     if isValid value then modify count_valid
     else
       modify (count_invalid key) ;;
       lift (redis_DEL client [key]) ;;
       modify count_cleaned)
    (fun error =>
       lift (emit (console_error ("Error processing key " +:+ key +:+ ":") (Some error))) ;;
       modify count_error).

Fixpoint for_of (keys : list string) (body : string -> N unit) : N unit :=
  match keys with
  | [] => nret tt
  | key :: rest => body key ;; for_of rest body
  end.

(** [body] is what [await req.json()] and the reading of its [pattern]
    yield; a missing pattern defaults to ["tts:"]. *)
Definition POST (body : outcome (option string)) : M (R := R) reply :=
  try_catch
    (RedisCache.bind (fun w => (body, w)) (fun given =>
     let pattern := default "tts:" given in
     RedisCache.bind (redis_KEYS client ("monocloud:" +:+ pattern +:+ "*")) (fun keys =>
     RedisCache.bind
       (emit (console_log
                ["Found " +:+ pretty (length keys) +:+ " keys matching pattern: "
                 +:+ pattern])) (fun _ =>
     fun w =>
       match for_of keys check
               {| total := length keys; valid := 0; invalid := 0; cleaned := 0;
                  errors := 0; invalidKeys := [] |} w with
       | (Return _, res, w') =>
           (Return
              (Validated
                 ("Validated " +:+ pretty (total res) +:+ " keys. Found "
                  +:+ pretty (invalid res) +:+ " invalid entries and cleaned "
                  +:+ pretty (cleaned res) +:+ ".")
                 res), w')
       | (Throw e, _, w') => (Throw e, w')
       end))))
    (fun error =>
       RedisCache.bind
         (emit (console_error "Error validating Redis keys:" (Some error)))
         (fun _ => ret Failed)).

End Route.
End ValidateRoute.

(** *** [src/unnamed/part_003]: the speech route over [ServerCache] *)

Module SpeechRoute.

(** [x || fallback] on an optional string. *)
Definition or_else (fallback : string) (x : option string) : string :=
  match x with
  | Some s => if nonempty s then s else fallback
  | None => fallback
  end.

Definition cacheKey (text : string) (voice instructions : option string) : string :=
  "speech:" +:+ text +:+ ":" +:+ or_else "alloy" voice +:+ ":"
  +:+ or_else "Speak naturally and professionally" instructions.

Definition responseData (base64Audio : string) : jsval :=
  JObj [("audio", JStr base64Audio); ("contentType", JStr "audio/mpeg")].

(** [body] is what [await request.json()] and the reading of [text],
    [voice] and [instructions] yield; [speech text instructions voice] is what
    the generation and its base64 encoding yield; [now] is the clock at the
    cache lookup and [later] the clock when the audio is stored. *)
Definition POST (now later : Z)
    (body : outcome (option string * option string * option string))
    (speech : string -> string -> string -> outcome string)
    (c : ServerCache.t) : outcome NextResponse * ServerCache.t * list effect :=
  let failed (error : thrown) (c' : ServerCache.t) (log : list effect) :=
    let log' := (log ++ [console_error "[TTS API] Error:" (Some error)])%list in
    match error with
    | ErrorObject m | PlainValue m =>
        (Return {| status_code := 500;
                   json := JObj [("error",
                                  JStr (if nonempty m then m
                                        else "Failed to generate speech"))] |},
         c', log')
    | ThrownNull =>
        (Throw (ErrorObject "Cannot read properties of null (reading 'message')"),
         c', log')
    | ThrownUndefined =>
        (Throw (ErrorObject "Cannot read properties of undefined (reading 'message')"),
         c', log')
    end in
  match body with
  | Throw error => failed error c []
  | Return (text, voice, instructions) =>
      if nonempty (default "" text) then
        let text := default "" text in
        let key := cacheKey text voice instructions in
        let (cachedAudio, c1) := ServerCache.get now key c in
        if truthy cachedAudio then
          (Return {| status_code := 200; json := cachedAudio |}, c1,
           [console_log ["[TTS API] Using cached audio response"]])
        else
          let log := [console_log ["[TTS API] Cache miss, generating new audio"]] in
          match speech text (or_else "Speak naturally and professionally" instructions)
                  (or_else "alloy" voice) with
          | Throw error => failed error c1 log
          | Return base64Audio =>
              (Return {| status_code := 200; json := responseData base64Audio |},
               ServerCache.set later key (responseData base64Audio)
                 (Some (24 * 60 * 60 * 1000)) c1,
               log)
          end
      else
        (Return {| status_code := 400; json := JObj [("error", JStr "Text is required")] |},
         c, [])
  end.

End SpeechRoute.

(** ** Vocabulary of the further properties *)

(** The command [c] names [fullKey] and nothing else. *)
Definition addresses (fullKey : string) (c : command) : Prop :=
  match c with
  | GET k | EXISTS k | SET k _ _ => k = fullKey
  | DEL ks => ks = [fullKey]
  | KEYS _ => False
  end.

(** What the probe leaves alone. *)
Definition same_settings {R : Type} (w w' : RedisCache.world R) : Prop :=
  RedisCache.memoryCache w' = RedisCache.memoryCache w
  /\ RedisCache.clock w' = RedisCache.clock w
  /\ RedisCache.window w' = RedisCache.window w
  /\ RedisCache.prefix (RedisCache.this w') = RedisCache.prefix (RedisCache.this w)
  /\ RedisCache.defaultTTL (RedisCache.this w') = RedisCache.defaultTTL (RedisCache.this w)
  /\ RedisCache.lastConnectionCheck (RedisCache.this w')
     = RedisCache.lastConnectionCheck (RedisCache.this w)
  /\ RedisCache.connectionCheckInterval (RedisCache.this w')
     = RedisCache.connectionCheckInterval (RedisCache.this w).

(** ** Concrete inputs of the further properties *)

Module Cases.

(** ASCII stand-ins for [toLowerCase] and [trim]. *)
Definition lower (c : ascii) : ascii :=
  let n := nat_of_ascii c in
  if ((65 <=? n) && (n <=? 90))%nat then ascii_of_nat (n + 32) else c.

Fixpoint toLowerCase (s : string) : string :=
  match s with
  | EmptyString => EmptyString
  | String c rest => String (lower c) (toLowerCase rest)
  end.

Definition blank (c : ascii) : bool :=
  let n := nat_of_ascii c in ((n =? 32) || (9 <=? n) && (n <=? 13))%nat.

Fixpoint trimStart (s : string) : string :=
  match s with
  | String c rest => if blank c then trimStart rest else s
  | EmptyString => EmptyString
  end.

Fixpoint trimEnd (s : string) : string :=
  match s with
  | EmptyString => EmptyString
  | String c rest =>
      match trimEnd rest with
      | EmptyString => if blank c then EmptyString else String c EmptyString
      | kept => String c kept
      end
  end.

Definition trim (s : string) : string := trimEnd (trimStart s).

Definition graph : jsval :=
  JObj [("owner", JStr "vercel"); ("repo", JStr "turborepo"); ("nodes", JArr [])].

(** An analysis that succeeds, and one that fails on the network. *)
Definition analyzed (_ : string) : outcome jsval := Return graph.
Definition rate_limited (_ : string) : outcome jsval :=
  Throw (ErrorObject "API rate limit exceeded").

(** A store that already holds a graph. *)
Definition stocked : Double.t :=
  {| Double.store := {[ "monocloud:repo:a/b" := JStr "graph" ]};
     Double.get_script := []; Double.exists_script := [];
     Double.keys_script := []; Double.set_script := []; Double.del_script := [] |}.

(** A store holding a graph, behind a read-only token. *)
Definition stocked_read_only : Double.t :=
  {| Double.store := {[ "monocloud:repo:a/b" := JStr "graph" ]};
     Double.get_script := []; Double.exists_script := [];
     Double.keys_script := [];
     Double.set_script := [Some (Scenario.noperm "set")];
     Double.del_script := [] |}.


(** The probe's delete passes, the next delete is refused. *)
Definition delete_refused_later : Double.t :=
  {| Double.store := ∅; Double.get_script := []; Double.exists_script := [];
     Double.keys_script := []; Double.set_script := [];
     Double.del_script := [None; Some (Scenario.noperm "del")] |}.

(** Stored audio: one valid entry, one that is not audio. *)
Definition audio_store : Double.t :=
  {| Double.store := {[ "monocloud:tts:a" := JStr "data:audio/mpeg;base64,AAAA";
                        "monocloud:tts:b" := JNum 7 ]};
     Double.get_script := []; Double.exists_script := [];
     Double.keys_script := []; Double.set_script := []; Double.del_script := [] |}.

Definition voiced (_ _ _ : string) : outcome string := Return "SUQzBAAAAAAA".

End Cases.

(** * Verification *)

Import RedisCache.

Section Rules.
Context {R : Type} (client : Redis R).
Implicit Types w : world R.

(** ** Rules for [wp] *)

Lemma wp_returns {A} (m : M A) (Q : A -> world R -> Prop) w :
  wp m Q never w -> exists a w', m w = (Return a, w') /\ Q a w'.
Proof.
  unfold wp. destruct (m w) as [[a|e] w']; [eauto | intros []].
Qed.

Lemma wp_mono {A} (m : M A) (Q Q' : A -> world R -> Prop) (E E' : thrown -> world R -> Prop) w :
  wp m Q E w -> (forall a w', Q a w' -> Q' a w') -> (forall e w', E e w' -> E' e w') ->
  wp m Q' E' w.
Proof. unfold wp. destruct (m w) as [[a|e] w']; auto. Qed.

Lemma wp_ret {A} (a : A) Q E w : Q a w -> wp (ret a) Q E w.
Proof. exact id. Qed.

Lemma wp_throw {A} e (Q : A -> world R -> Prop) E w : E e w -> wp (throw e) Q E w.
Proof. exact id. Qed.

Lemma wp_read {A} (f : world R -> A) Q E w : Q (f w) w -> wp (read f) Q E w.
Proof. exact id. Qed.

Lemma wp_update (f : world R -> world R) Q E w : Q tt (f w) -> wp (update f) Q E w.
Proof. exact id. Qed.

Lemma wp_bind {A B} (m : M A) (k : A -> M B) Q E w :
  wp m (fun a w' => wp (k a) Q E w') E w -> wp (bind m k) Q E w.
Proof. unfold wp, bind. destruct (m w) as [[a|e] w']; auto. Qed.

Lemma wp_try_catch {A} (body : M A) handler Q E w :
  wp body Q (fun e w' => wp (handler e) Q E w') w -> wp (try_catch body handler) Q E w.
Proof. unfold wp, try_catch. destruct (body w) as [[a|e] w']; auto. Qed.

Lemma wp_request {A} c (run : R -> outcome A * R) Q E w :
  (forall a r', run (redis w) = (Return a, r') -> Q a (sent c r' w)) ->
  (forall e r', run (redis w) = (Throw e, r') -> E e (sent c r' w)) ->
  wp (request c run) Q E w.
Proof.
  intros HQ HE. unfold wp, request.
  destruct (run (redis w)) as [[a|e] r']; [apply HQ | apply HE]; reflexivity.
Qed.

End Rules.

(** Symbolic execution of a method body: [wp_step] applies the rule of the
    outermost construct, splitting on each answer of the client and on each
    test. *)
Ltac simp :=
  cbn [this memoryCache redis calls effects clock window sent
       prefix defaultTTL isRedisAvailable isReadOnly keysCommandAllowed
       getCommandAllowed lastConnectionCheck connectionCheckInterval
       with_isRedisAvailable with_isReadOnly with_keysCommandAllowed
       with_getCommandAllowed with_lastConnectionCheck
       andb negb orb default].
Ltac simp_all :=
  cbn [this memoryCache redis calls effects clock window sent
       prefix defaultTTL isRedisAvailable isReadOnly keysCommandAllowed
       getCommandAllowed lastConnectionCheck connectionCheckInterval
       with_isRedisAvailable with_isReadOnly with_keysCommandAllowed
       with_getCommandAllowed with_lastConnectionCheck
       andb negb orb default] in *.
(* pair the client's answer assumed in the statement with the one met
   during the run *)
Ltac same_answer :=
  repeat match goal with
  | H1 : ?t = (_, _), H2 : ?t = (_, _) |- _ =>
      rewrite H1 in H2; inversion H2; subst; clear H2
  end.

Ltac wp_step :=
  lazymatch goal with
  | |- wp (bind _ _) _ _ _ => apply wp_bind
  | |- wp (try_catch _ _) _ _ _ => apply wp_try_catch
  | |- wp (ret _) _ _ _ => apply wp_ret
  | |- wp (throw _) _ _ _ => apply wp_throw
  | |- wp (read _) _ _ _ => apply wp_read
  | |- wp (update _) _ _ _ => apply wp_update
  | |- wp (on_this _) _ _ _ => apply wp_update
  | |- wp (on_memoryCache _) _ _ _ => apply wp_update
  | |- wp (emit _) _ _ _ => apply wp_update
  | |- wp (request _ _) _ _ _ => apply wp_request; intros ? ? ?; simp_all; same_answer
  | |- wp (redis_GET _ _) _ _ _ => apply wp_request; intros ? ? ?; simp_all; same_answer
  | |- wp (redis_SET _ _ _ _) _ _ _ => apply wp_request; intros ? ? ?; simp_all; same_answer
  | |- wp (redis_DEL _ _) _ _ _ => apply wp_request; intros ? ? ?; simp_all; same_answer
  | |- wp (redis_KEYS _ _) _ _ _ => apply wp_request; intros ? ? ?; simp_all; same_answer
  | |- wp (redis_EXISTS _ _) _ _ _ => apply wp_request; intros ? ? ?; simp_all; same_answer
  | |- wp (getFullKey _) _ _ _ => unfold getFullKey
  | |- wp (notify_error _) _ _ _ => unfold notify_error
  | |- wp notify_readonly _ _ _ => unfold notify_readonly
  | |- wp current_capabilities _ _ _ => unfold current_capabilities
  | |- wp (when ?b _) _ _ _ => unfold when
  | |- wp (message_of ?e) _ _ _ => destruct e; unfold message_of
  | |- wp (JSON_roundtrip ?d) _ _ _ => destruct d; unfold JSON_roundtrip
  | |- wp (if ?b then _ else _) _ _ _ => destruct b eqn:?
  | |- wp (match ?x with _ => _ end) _ _ _ => destruct x eqn:?
  end.

Ltac wp_run := simp; repeat (wp_step; simp).

Ltac open_world w :=
  destruct w as [[pfx ttl0 av ro ka ga last ivl] mem r cs fx clk win];
  simp_all; subst.

Section Claims.
Context {R : Type} (client : Redis R).
Implicit Types w : world R.

(** ** The Local Tier under [set], [get] and [has] *)

Lemma set_stores w key data ttl :
  wp (set client key data ttl)
     (fun _ w' => memoryCache w' = <[key := data]> (memoryCache w)) never w.
Proof. unfold set. wp_run; done. Qed.

Lemma get_local_hit w key v :
  memoryCache w !! key = Some v ->
  wp (get client key)
     (fun a w' => a = v /\ calls w' = calls w /\ this w' = this w
                  /\ memoryCache w' = memoryCache w) never w.
Proof.
  intros H. unfold get. wp_step. wp_step. simp. rewrite H. wp_run. done.
Qed.

Lemma has_local_hit w key v :
  memoryCache w !! key = Some v ->
  wp (has client key) (fun a w' => a = true /\ calls w' = calls w) never w.
Proof.
  intros H. unfold has. wp_step. wp_step. simp. rewrite H. wp_run. done.
Qed.

(** C2.  For all [k], [v] and [ttl > 0], [set(k, v, ttl)] followed at once by
    [get(k)] returns [v] unchanged, whatever the client is and whatever state
    it is in: [set] returns (its boolean is not constrained), and [get] then
    returns [v]. *)
Theorem set_then_get w key data ttl :
  0 < ttl ->
  exists b w1 w2,
    set client key data (Some ttl) w = (Return b, w1)
    /\ get client key w1 = (Return data, w2).
Proof.
  intros _.
  destruct (wp_returns _ _ _ (set_stores w key data (Some ttl))) as (b & w1 & Hset & Hmem).
  assert (Hk : memoryCache w1 !! key = Some data) by (rewrite Hmem; apply lookup_insert_eq).
  destruct (wp_returns _ _ _ (get_local_hit w1 key data Hk)) as (v & w2 & Hget & -> & _).
  eauto.
Qed.

(** C1 (amended).  [set] writes the Local Tier first.  When the status shows
    the persistent tier unavailable or read-only, no command is sent, the
    skip is logged, and [set] returns [true] on the Local Tier write alone.
    When the persistent write is attempted and the client raises, the error
    is logged with [console.error], the Local Tier still holds the value, and
    [set] returns [false]. *)
Theorem set_result_follows_persistent_write w key data ttl :
  (isRedisAvailable (this w) = false \/ isReadOnly (this w) = true ->
   exists w',
     set client key data ttl w = (Return true, w')
     /\ memoryCache w' !! key = Some data
     /\ calls w' = calls w
     /\ effects w' = (effects w ++
          [console_log ["[RedisCache] Set in memory cache for key: " +:+ key];
           console_log
             [(if isReadOnly (this w)
               then "[RedisCache] Redis is in read-only mode, using memory cache only for key: "
               else "[RedisCache] Redis unavailable, using memory cache only for key: ")
              +:+ key]])%list)
  /\ (isRedisAvailable (this w) = true -> isReadOnly (this w) = false ->
      data <> JUndefined ->
      forall e r',
        redis_set client (prefix (this w) +:+ key) data
          (default (defaultTTL (this w)) ttl) (redis w) = (Throw e, r') ->
        exists w',
          set client key data ttl w = (Return false, w')
          /\ memoryCache w' !! key = Some data
          /\ In (console_error
                   ("[RedisCache] Error writing to Redis for key " +:+ key +:+ ":")
                   (Some e)) (effects w')).
Proof.
  split.
  - intros Hskip.
    cut (wp (set client key data ttl)
           (fun b w' => b = true /\ memoryCache w' !! key = Some data
              /\ calls w' = calls w
              /\ effects w' = (effects w ++
                   [console_log ["[RedisCache] Set in memory cache for key: " +:+ key];
                    console_log
                      [(if isReadOnly (this w)
                        then "[RedisCache] Redis is in read-only mode, using memory cache only for key: "
                        else "[RedisCache] Redis unavailable, using memory cache only for key: ")
                       +:+ key]])%list) never w).
    { intros H. apply wp_returns in H as (b & w' & Hset & -> & H). eauto. }
    open_world w. unfold set.
    destruct Hskip as [-> | ->]; [| destruct av]; wp_run.
    all: rewrite ?lookup_insert_eq, <- ?app_assoc; done.
  - intros Hav Hro Hdata e r' Hwrite.
    cut (wp (set client key data ttl)
           (fun b w' => b = false /\ memoryCache w' !! key = Some data
              /\ In (console_error
                       ("[RedisCache] Error writing to Redis for key " +:+ key +:+ ":")
                       (Some e)) (effects w')) never w).
    { intros H. apply wp_returns in H as (b & w' & Hset & -> & H). eauto. }
    open_world w. unfold set. wp_run; same_answer; try done.
    all: rewrite lookup_insert_eq; repeat split; try done.
    all: rewrite ?in_app_iff; simpl; tauto.
Qed.

(** ** Status served from the last probe *)

Lemma checkRedisConnection_cached w :
  clock w - lastConnectionCheck (this w) < connectionCheckInterval (this w) ->
  checkRedisConnection client w =
    (Return {| cap_available := isRedisAvailable (this w);
               cap_readOnly := isReadOnly (this w);
               cap_keysCommandAllowed := keysCommandAllowed (this w);
               cap_getCommandAllowed := getCommandAllowed (this w) |}, w).
Proof.
  intros Hfresh. apply Z.ltb_lt in Hfresh.
  unfold checkRedisConnection, bind, read. simp. rewrite Hfresh.
  reflexivity.
Qed.

Lemma getStatus_cached w :
  clock w - lastConnectionCheck (this w) < connectionCheckInterval (this w) ->
  wp (getStatus client)
     (fun st w' =>
        available st = isRedisAvailable (this w)
        /\ readOnly st = isReadOnly (this w)
        /\ getCommandAllowed_ st = getCommandAllowed (this w)
        /\ memoryKeysCount st = size (memoryCache w)) never w.
Proof.
  intros Hfresh. unfold getStatus. apply wp_bind.
  unfold wp at 1. rewrite (checkRedisConnection_cached w Hfresh).
  wp_run; done.
Qed.

(** C3 (amended).  Expiry is enforced by [ServerCache] only: after
    [ServerCache.set(k, v, ttl)] at [now], once the clock is past
    [now + ttl], [get(k)] returns [null] and a subsequent [has(k)] is
    [false].  The Local Tier of the Tiered Cache keeps no expiry: after
    [set(k, v, ttl)], however far the clock advances, [get(k)] returns [v] and
    a subsequent [has(k)] returns [true]. *)
Theorem local_tier_keeps_entries_ServerCache_expires_them
    w key data ttl dt (c : ServerCache.t) now now' :
  now + ttl < now' ->
  (fst (ServerCache.get now' key (ServerCache.set now key data (Some ttl) c)) = JNull
   /\ forall later,
        ServerCache.has later key
          (snd (ServerCache.get now' key (ServerCache.set now key data (Some ttl) c)))
        = false)
  /\ exists b w1 w2 w3,
       set client key data (Some ttl) w = (Return b, w1)
       /\ get client key (advance dt w1) = (Return data, w2)
       /\ has client key w2 = (Return true, w3).
Proof.
  intros Hpast. split.
  - unfold ServerCache.get, ServerCache.set, ServerCache.has; cbn.
    rewrite lookup_insert_eq; cbn.
    assert ((now + ttl <? now') = true) as -> by (apply Z.ltb_lt; lia).
    cbn. rewrite lookup_delete_eq. done.
  - destruct (wp_returns _ _ _ (set_stores w key data (Some ttl)))
      as (b & w1 & Hset & Hmem).
    assert (Hk : memoryCache (advance dt w1) !! key = Some data)
      by (cbn; rewrite Hmem; apply lookup_insert_eq).
    destruct (wp_returns _ _ _ (get_local_hit _ key data Hk))
      as (v & w2 & Hget & -> & _ & _ & Hmem2).
    rewrite <- Hmem2 in Hk.
    destruct (wp_returns _ _ _ (has_local_hit _ key data Hk))
      as (h & w3 & Hhas & -> & _).
    eauto 10.
Qed.

(** C4 (amended).  [get] never raises.  When the persistent read is issued
    and the client raises, [get] returns [null]; if the raised value is an
    Error whose message carries no permission tag and mentions [connect],
    [network] or [timeout], [get] has set [isRedisAvailable] to [false], and
    [getStatus] reports [available = false] as long as the probe interval
    since the last probe has not elapsed. *)
Theorem get_swallows_persistent_errors w key :
  (exists v w', get client key w = (Return v, w'))
  /\ forall e r',
       memoryCache w !! key = None ->
       isRedisAvailable (this w) = true ->
       getCommandAllowed (this w) = true ->
       redis_get client (prefix (this w) +:+ key) (redis w) = (Throw e, r') ->
       exists w',
         get client key w = (Return JNull, w')
         /\ (error_with mentions_noperm e = false ->
             error_with mentions_connection e = true ->
             isRedisAvailable (this w') = false
             /\ forall dt,
                  clock w' + dt - lastConnectionCheck (this w')
                    < connectionCheckInterval (this w') ->
                  exists st w'',
                    getStatus client (advance dt w') = (Return st, w'')
                    /\ available st = false).
Proof.
  split.
  - cut (wp (get client key) (fun _ _ => True) never w).
    { intros H. apply wp_returns in H as (v & w' & H & _). eauto. }
    unfold get. wp_run; done.
  - intros e r' Hmiss Hav Hga Hread.
    cut (wp (get client key)
           (fun v w' => v = JNull
              /\ clock w' = clock w
              /\ lastConnectionCheck (this w') = lastConnectionCheck (this w)
              /\ connectionCheckInterval (this w') = connectionCheckInterval (this w)
              /\ (error_with mentions_noperm e = false ->
                  error_with mentions_connection e = true ->
                  isRedisAvailable (this w') = false)) never w).
    { intros H. apply wp_returns in H as (v & w' & Hget & -> & Hclk & Hlast & Hivl & Hflag).
      exists w'. split; [exact Hget |]. intros Hperm Hconn.
      split; [auto |]. intros dt Hdt.
      assert (Hfresh : clock (advance dt w') - lastConnectionCheck (this (advance dt w'))
                       < connectionCheckInterval (this (advance dt w')))
        by (cbn; lia).
      destruct (wp_returns _ _ _ (getStatus_cached _ Hfresh)) as (st & w'' & Hst & Ha & _).
      exists st, w''. split; [exact Hst |]. rewrite Ha. cbn. auto. }
    unfold get. wp_step. wp_step. simp. rewrite Hmiss.
    open_world w. wp_run; try done.
    all: repeat split; try done; intros; congruence.
Qed.

(** C6.  If, during one [set], the client rejects the write with an Error
    whose message mentions [NOPERM], [no permissions] or [readonly], then
    [set] has recorded [isReadOnly = true] when it returns, and a [getStatus]
    called before the next probe is due reports [readOnly = true]. *)
Theorem set_permission_error_flips_readOnly w key data ttl e r' :
  isRedisAvailable (this w) = true ->
  isReadOnly (this w) = false ->
  data <> JUndefined ->
  redis_set client (prefix (this w) +:+ key) data
    (default (defaultTTL (this w)) ttl) (redis w) = (Throw e, r') ->
  error_with mentions_readonly e = true ->
  exists b w',
    set client key data ttl w = (Return b, w')
    /\ isReadOnly (this w') = true
    /\ forall dt,
         clock w' + dt - lastConnectionCheck (this w')
           < connectionCheckInterval (this w') ->
         exists st w'',
           getStatus client (advance dt w') = (Return st, w'')
           /\ readOnly st = true.
Proof.
  intros Hav Hro Hdata Hwrite Hperm.
  cut (wp (set client key data ttl)
         (fun _ w' => isReadOnly (this w') = true) never w).
  { intros H. apply wp_returns in H as (b & w' & Hset & Hflag).
    exists b, w'. split; [exact Hset |]. split; [exact Hflag |].
    intros dt Hdt.
    assert (Hfresh : clock (advance dt w') - lastConnectionCheck (this (advance dt w'))
                     < connectionCheckInterval (this (advance dt w')))
      by (cbn; lia).
    destruct (wp_returns _ _ _ (getStatus_cached _ Hfresh))
      as (st & w'' & Hst & _ & Hr & _).
    exists st, w''. split; [exact Hst |]. rewrite Hr. exact Hflag. }
  open_world w. unfold set. wp_run; try done; congruence.
Qed.

(** C10.  With the tier available and writable and the persistent write
    completed: when point reads are permitted, [set] reads the key back and
    returns the truthiness of what it reads, so [false] when the read yields
    no data, although both tiers were written; when point reads are not
    permitted, [set] sends no read and returns [true]. *)
Theorem set_verifies_the_write_when_reads_are_permitted w key data ttl r1 :
  isRedisAvailable (this w) = true ->
  isReadOnly (this w) = false ->
  data <> JUndefined ->
  redis_set client (prefix (this w) +:+ key) data
    (default (defaultTTL (this w)) ttl) (redis w) = (Return tt, r1) ->
  (getCommandAllowed (this w) = true ->
   forall v r2,
     redis_get client (prefix (this w) +:+ key) r1 = (Return v, r2) ->
     exists w',
       set client key data ttl w = (Return (truthy v), w')
       /\ memoryCache w' !! key = Some data
       /\ calls w' = (calls w ++
            [SET (prefix (this w) +:+ key) data (default (defaultTTL (this w)) ttl);
             GET (prefix (this w) +:+ key)])%list)
  /\ (getCommandAllowed (this w) = false ->
      exists w',
        set client key data ttl w = (Return true, w')
        /\ memoryCache w' !! key = Some data
        /\ calls w' = (calls w ++
             [SET (prefix (this w) +:+ key) data (default (defaultTTL (this w)) ttl)])%list).
Proof.
  intros Hav Hro Hdata Hwrite. split.
  - intros Hga v r2 Hverify.
    cut (wp (set client key data ttl)
           (fun b w' => b = truthy v /\ memoryCache w' !! key = Some data
              /\ calls w' = (calls w ++
                   [SET (prefix (this w) +:+ key) data (default (defaultTTL (this w)) ttl);
                    GET (prefix (this w) +:+ key)])%list) never w).
    { intros H. apply wp_returns in H as (b & w' & Hset & -> & H). eauto. }
    open_world w. unfold set. wp_run; try done.
    all: rewrite lookup_insert_eq, <- ?app_assoc; done.
  - intros Hga.
    cut (wp (set client key data ttl)
           (fun b w' => b = true /\ memoryCache w' !! key = Some data
              /\ calls w' = (calls w ++
                   [SET (prefix (this w) +:+ key) data (default (defaultTTL (this w)) ttl)])%list)
           never w).
    { intros H. apply wp_returns in H as (b & w' & Hset & -> & H). eauto. }
    open_world w. unfold set. wp_run; try done.
    all: rewrite lookup_insert_eq; done.
Qed.

(** C8.  With [keysCommandAllowed = false], [clear(pattern)] empties the Local
    Tier, sends nothing to the persistent tier (so no [KEYS]) and returns
    [true], leaving [keysCommandAllowed = false] in the status.  A clear that
    did reach the persistent tier and returned [true] leaves the status
    available, writable and with [keysCommandAllowed = true]: the boolean is
    [true] in both cases, and it is the status flag that tells a memory-only
    clear from a full one. *)
Theorem clear_without_KEYS_is_memory_only w pattern :
  keysCommandAllowed (this w) = false ->
  (exists w',
     clear client pattern w = (Return true, w')
     /\ memoryCache w' = ∅
     /\ calls w' = calls w
     /\ keysCommandAllowed (this w') = false)
  /\ forall w2 pattern2 w2' b,
       clear client pattern2 w2 = (Return b, w2') ->
       calls w2' <> calls w2 ->
       b = true ->
       isRedisAvailable (this w2') = true
       /\ isReadOnly (this w2') = false
       /\ keysCommandAllowed (this w2') = true.
Proof.
  intros Hka. split.
  - cut (wp (clear client pattern)
           (fun b w' => b = true /\ memoryCache w' = ∅ /\ calls w' = calls w
              /\ keysCommandAllowed (this w') = false) never w).
    { intros H. apply wp_returns in H as (b & w' & Hc & -> & H). eauto. }
    open_world w. unfold clear. destruct av, ro; wp_run; done.
  - intros w2 pattern2 w2' b Hc Hcalls ->.
    assert (H : wp (clear client pattern2)
              (fun b w' => b = true -> calls w' <> calls w2 ->
                           isRedisAvailable (this w') = true
                           /\ isReadOnly (this w') = false
                           /\ keysCommandAllowed (this w') = true) never w2).
    { clear Hc Hcalls. destruct w2 as [[pfx ttl0 av ro ka ga last ivl] mem r cs fx clk win].
      unfold clear. destruct av, ro, ka; wp_run; simp; try done. }
    unfold wp in H. rewrite Hc in H. auto.
Qed.

(** ** The probe *)

Lemma wp_seq {A B} (m : M A) (k : A -> M B) Q1 E1 Q E w :
  wp m Q1 E1 w ->
  (forall a w', Q1 a w' -> wp (k a) Q E w') ->
  (forall e w', E1 e w' -> E e w') ->
  wp (bind m k) Q E w.
Proof.
  intros Hm Hk HE. apply wp_bind. eapply wp_mono; [exact Hm | exact Hk | exact HE].
Qed.

(** Each block of the probe leaves the Local Tier alone, and what escapes
    its handler is the TypeError of reading [.message] of [null] or
    [undefined]. *)
Lemma probe_get_spec key w :
  wp (probe_get client key)
     (fun _ w' => memoryCache w' = memoryCache w
                  /\ isRedisAvailable (this w') = getCommandAllowed (this w'))
     (fun e w' => memoryCache w' = memoryCache w /\ instanceofError e = true) w.
Proof. unfold probe_get. wp_run; done. Qed.

Lemma probe_exists_spec key w :
  wp (probe_exists client key)
     (fun _ w' => memoryCache w' = memoryCache w /\ this w' = this w)
     (fun e w' => memoryCache w' = memoryCache w /\ instanceofError e = true) w.
Proof. unfold probe_exists. wp_run; done. Qed.

Lemma probe_keys_spec pattern w :
  wp (probe_keys client pattern)
     (fun _ w' => memoryCache w' = memoryCache w
                  /\ isRedisAvailable (this w') = isRedisAvailable (this w)
                  /\ getCommandAllowed (this w') = getCommandAllowed (this w))
     (fun e w' => memoryCache w' = memoryCache w /\ instanceofError e = true) w.
Proof. unfold probe_keys. wp_run; done. Qed.

Lemma probe_write_spec key w :
  wp (probe_write client key)
     (fun _ w' => memoryCache w' = memoryCache w
                  /\ isRedisAvailable (this w') = isRedisAvailable (this w)
                  /\ getCommandAllowed (this w') = getCommandAllowed (this w))
     (fun e w' => memoryCache w' = memoryCache w /\ instanceofError e = true) w.
Proof. unfold probe_write. wp_run; done. Qed.

Lemma connection_failed_spec e w :
  instanceofError e = true ->
  wp (connection_failed e)
     (fun _ w' => memoryCache w' = memoryCache w
                  /\ isRedisAvailable (this w') = false
                  /\ isReadOnly (this w') = true
                  /\ keysCommandAllowed (this w') = false
                  /\ getCommandAllowed (this w') = false) never w.
Proof. intros He. unfold connection_failed. wp_run; done. Qed.

Lemma checkRedisConnection_spec w :
  wp (checkRedisConnection client)
     (fun caps w' =>
        memoryCache w' = memoryCache w
        /\ caps = {| cap_available := isRedisAvailable (this w');
                     cap_readOnly := isReadOnly (this w');
                     cap_keysCommandAllowed := keysCommandAllowed (this w');
                     cap_getCommandAllowed := getCommandAllowed (this w') |}
        /\ (connectionCheckInterval (this w) <= clock w - lastConnectionCheck (this w) ->
            isRedisAvailable (this w') = getCommandAllowed (this w'))) never w.
Proof.
  unfold checkRedisConnection. do 4 (wp_step; simp).
  match goal with |- context [?a <? ?b] => destruct (a <? b) eqn:Hdue end.
  - wp_run. repeat split. apply Z.ltb_lt in Hdue. lia.
  - wp_step. wp_step. simp.
    (* what the outer catch establishes, whichever block raised *)
    assert (Hcatch : forall e w1,
              memoryCache w1 = memoryCache w /\ instanceofError e = true ->
              wp (connection_failed e)
                 (fun _ w' => memoryCache w' = memoryCache w
                    /\ isRedisAvailable (this w') = getCommandAllowed (this w'))
                 never w1).
    { intros e w1 [Hm He].
      eapply wp_mono; [apply (connection_failed_spec _ _ He) | | done].
      intros _ w2 (Hm2 & -> & _ & _ & ->). split; congruence. }
    eapply wp_seq with
      (Q1 := fun _ w' => memoryCache w' = memoryCache w
                         /\ isRedisAvailable (this w') = getCommandAllowed (this w'))
      (E1 := never); [| intros _ w' [Hm Hg]; wp_run; done | done].
    apply wp_try_catch.
    eapply wp_seq; [apply probe_get_spec | | intros e w1 [Hm He]; apply Hcatch; done].
    intros _ w1 [Hm1 Hg1]. simp_all.
    eapply wp_seq; [apply probe_exists_spec | |
                    intros e w2 [Hm He]; apply Hcatch; split; congruence].
    intros _ w2 [Hm2 Ht2].
    eapply wp_seq; [apply probe_keys_spec | |
                    intros e w3 [Hm He]; apply Hcatch; split; congruence].
    intros _ w3 (Hm3 & Ha3 & Hg3).
    eapply wp_mono; [apply probe_write_spec | |
                     intros e w4 [Hm He]; apply Hcatch; split; congruence].
    intros _ w4 (Hm4 & Ha4 & Hg4). split; congruence.
Qed.

Lemma getStatus_spec w :
  wp (getStatus client)
     (fun st w' => memoryCache w' = memoryCache w
                   /\ memoryKeysCount st = size (memoryCache w)) never w.
Proof.
  unfold getStatus.
  eapply wp_seq; [apply checkRedisConnection_spec | | done].
  intros caps w1 (Hm1 & _ & _). wp_run; simp; rewrite ?Hm1; done.
Qed.

(** C5 (amended).  In the capabilities produced by a probe that runs (the
    probe interval has elapsed), [available] and [getCommandAllowed] agree,
    so [available = false] implies [getCommandAllowed = false]. *)
Theorem fresh_probe_ties_availability_to_GET w :
  connectionCheckInterval (this w) <= clock w - lastConnectionCheck (this w) ->
  exists caps w',
    checkRedisConnection client w = (Return caps, w')
    /\ cap_available caps = cap_getCommandAllowed caps.
Proof.
  intros Hdue.
  destruct (wp_returns _ _ _ (checkRedisConnection_spec w))
    as (caps & w' & Hrun & _ & -> & Hreach).
  eexists _, w'. split; [exact Hrun |]. cbn. auto.
Qed.

(** C9.  Two [clear] calls in succession, in any state of the cache and of
    the client: each returns without raising (its boolean is [false] when the
    persistent tier raised), the Local Tier has size 0 after each, and
    [getStatus] reports [memoryKeysCount = 0] after each. *)
Theorem clear_twice w pattern1 pattern2 :
  exists b1 w1 b2 w2,
    clear client pattern1 w = (Return b1, w1)
    /\ size (memoryCache w1) = 0%nat
    /\ (exists st w', getStatus client w1 = (Return st, w')
                      /\ memoryKeysCount st = 0%nat)
    /\ clear client pattern2 w1 = (Return b2, w2)
    /\ size (memoryCache w2) = 0%nat
    /\ (exists st w', getStatus client w2 = (Return st, w')
                      /\ memoryKeysCount st = 0%nat).
Proof.
  assert (H : forall w p, wp (clear client p) (fun _ w' => memoryCache w' = ∅) never w).
  { intros w0 p. unfold clear. wp_run; done. }
  assert (Hst : forall w, memoryCache w = ∅ ->
            exists st w', getStatus client w = (Return st, w')
                          /\ memoryKeysCount st = 0%nat).
  { intros w0 Hm.
    destruct (wp_returns _ _ _ (getStatus_spec w0)) as (st & w' & Hrun & _ & Hn).
    exists st, w'. rewrite Hn, Hm, map_size_empty. done. }
  destruct (wp_returns _ _ _ (H w pattern1)) as (b1 & w1 & Hc1 & Hm1).
  destruct (wp_returns _ _ _ (H w1 pattern2)) as (b2 & w2 & Hc2 & Hm2).
  exists b1, w1, b2, w2.
  rewrite Hm1, Hm2, map_size_empty. auto 10.
Qed.

End Claims.

(** ** Concrete runs *)

Import Scenario.

(** C1, as stated, fails: the tier is available and writable, the write
    raises, and [set] returns [false]. *)
Lemma set_returns_false_when_write_raises :
  let w := redisCache (write_fails_once fetch_failed) in
  isRedisAvailable (this w) = true
  /\ isReadOnly (this w) = false
  /\ fst (Double.set "monocloud:repo:a/b" (JStr "graph") 3600 (redis w))
     = Throw fetch_failed
  /\ fst (set Double.client "repo:a/b" (JStr "graph") (Some 3600) w) = Return false.
Proof. vm_compute. repeat split. Qed.

(** C1 (amended) at a read-only token and at a write that raises. *)
Lemma set_result_follows_persistent_write_witness :
  (isReadOnly (this (redisCache read_only_token)) = true
   /\ exists w',
        set Double.client "repo:a/b" (JStr "graph") (Some 3600)
          (redisCache read_only_token) = (Return true, w')
        /\ calls w' = calls (redisCache read_only_token))
  /\ (fst (Double.set "monocloud:repo:a/b" (JStr "graph") 3600
             (redis (redisCache (write_fails_once fetch_failed))))
      = Throw fetch_failed
      /\ exists w',
           set Double.client "repo:a/b" (JStr "graph") (Some 3600)
             (redisCache (write_fails_once fetch_failed)) = (Return false, w')).
Proof.
  split.
  - split; [reflexivity |].
    destruct (proj1 (set_result_follows_persistent_write Double.client
                       (redisCache read_only_token) "repo:a/b" (JStr "graph")
                       (Some 3600)) (or_intror eq_refl))
      as (w' & Hset & _ & Hcalls & _).
    exists w'. split; assumption.
  - split; [reflexivity |].
    destruct (proj2 (set_result_follows_persistent_write Double.client
                       (redisCache (write_fails_once fetch_failed))
                       "repo:a/b" (JStr "graph") (Some 3600))
                eq_refl eq_refl ltac:(discriminate) fetch_failed _ eq_refl)
      as (w' & Hset & _).
    exists w'. exact Hset.
Defined.

(** C2 against a store that cannot be reached. *)
Lemma set_then_get_witness :
  0 < 3600
  /\ exists b w1 w2,
       set Double.client "repo:a/b" (JStr "graph") (Some 3600)
         (redisCache Scenario.unreachable) = (Return b, w1)
       /\ get Double.client "repo:a/b" w1 = (Return (JStr "graph"), w2).
Proof. split; [lia | apply set_then_get; lia]. Defined.

(** C3, as stated, fails: a year after [set("k", "v", 60)], [get("k")]
    returns ["v"] from the Local Tier, without a request to the persistent
    tier, and [has("k")] returns [true]. *)
Lemma local_entry_outlives_its_ttl :
  let w1 := snd (set Double.client "k" (JStr "v") (Some 60) (redisCache Double.healthy)) in
  let later := advance (365 * 24 * 60 * 60 * 1000) w1 in
  fst (get Double.client "k" later) = Return (JStr "v")
  /\ calls (snd (get Double.client "k" later)) = calls w1
  /\ fst (has Double.client "k" (snd (get Double.client "k" later))) = Return true.
Proof. vm_compute. repeat split. Qed.

(** C3 (amended) with a ttl of 1000. *)
Lemma local_tier_keeps_entries_ServerCache_expires_them_witness :
  T0 + 1000 < T0 + 1001
  /\ fst (ServerCache.get (T0 + 1001) "k"
            (ServerCache.set T0 "k" (JStr "v") (Some 1000) ServerCache.new)) = JNull
  /\ exists b w1 w2 w3,
       set Double.client "k" (JStr "v") (Some 1000) (redisCache Double.healthy)
         = (Return b, w1)
       /\ get Double.client "k" (advance 1000001 w1) = (Return (JStr "v"), w2)
       /\ has Double.client "k" w2 = (Return true, w3).
Proof.
  assert (Hpast : T0 + 1000 < T0 + 1001) by lia.
  split; [exact Hpast |].
  destruct (local_tier_keeps_entries_ServerCache_expires_them Double.client
              (redisCache Double.healthy) "k" (JStr "v") 1000 1000001
              ServerCache.new T0 (T0 + 1001) Hpast) as [[Hget _] Hlocal].
  split; [exact Hget | exact Hlocal].
Defined.

(** C4, as stated, fails: the read times out and [get] returns [null], but
    the probe interval has elapsed, so [getStatus] probes again, finds the
    store answering, and reports [available = true]. *)
Lemma status_available_again_after_timeout :
  let w := advance 60000 (redisCache (read_fails_once timed_out)) in
  error_with mentions_noperm timed_out = false
  /\ error_with mentions_connection timed_out = true
  /\ fst (Double.get "monocloud:k" (redis w)) = Throw timed_out
  /\ fst (get Double.client "k" w) = Return JNull
  /\ fst (getStatus Double.client (snd (get Double.client "k" w)))
     = Return {| available := true; readOnly := false; keysCount := 0;
                 memoryKeysCount := 0; keysCommandAllowed_ := true;
                 getCommandAllowed_ := true |}.
Proof. vm_compute. repeat split. Qed.

(** C4 (amended) at a read that times out, with [getStatus] called 59999 ms
    after the last probe. *)
Lemma get_swallows_persistent_errors_witness :
  fst (Double.get "monocloud:k" (redis (redisCache (read_fails_once timed_out))))
  = Throw timed_out
  /\ exists w',
       get Double.client "k" (redisCache (read_fails_once timed_out))
         = (Return JNull, w')
       /\ isRedisAvailable (this w') = false
       /\ exists st w'',
            getStatus Double.client (advance 59999 w') = (Return st, w'')
            /\ available st = false.
Proof.
  split; [reflexivity |].
  destruct (proj2 (get_swallows_persistent_errors Double.client
                     (redisCache (read_fails_once timed_out)) "k")
              timed_out _ eq_refl eq_refl eq_refl eq_refl)
    as (w' & Hget & Hstatus).
  destruct (Hstatus eq_refl eq_refl) as [Hflag Hcached].
  exists w'. split; [exact Hget |]. split; [exact Hflag |].
  apply Hcached.
  replace w' with (snd (get Double.client "k" (redisCache (read_fails_once timed_out))))
    by (rewrite Hget; reflexivity).
  vm_compute. reflexivity.
Defined.

(** C5, as stated, fails.  The first probe is refused its GET and reports
    [available = false] with [readOnly = false] and
    [keysCommandAllowed = true]; after a second probe that succeeds, a [get]
    that times out leaves a status with [available = false],
    [readOnly = false] and both command flags [true]. *)
Lemma unavailable_yet_writable_and_permitted :
  let first := RedisCache.new Double.client None None refused_then_timed_out T0 false in
  let w1 := snd (getStatus Double.client (advance 60000 (snd first))) in
  let w2 := snd (get Double.client "k" w1) in
  fst first
  = Return {| cap_available := false; cap_readOnly := false;
              cap_keysCommandAllowed := true; cap_getCommandAllowed := false |}
  /\ fst (getStatus Double.client w2)
     = Return {| available := false; readOnly := false; keysCount := 0;
                 memoryKeysCount := 0; keysCommandAllowed_ := true;
                 getCommandAllowed_ := true |}.
Proof. vm_compute. split; reflexivity. Qed.

(** C5 (amended) at the constructor's probe. *)
Lemma fresh_probe_ties_availability_to_GET_witness :
  let w := initial (fresh "monocloud:" 86400) refused_then_timed_out T0 false in
  connectionCheckInterval (this w) <= clock w - lastConnectionCheck (this w)
  /\ exists caps w',
       checkRedisConnection Double.client w = (Return caps, w')
       /\ cap_available caps = cap_getCommandAllowed caps.
Proof.
  assert (Hdue : 60000 <= T0 - 0) by (vm_compute; discriminate).
  split; [exact Hdue |].
  exact (fresh_probe_ties_availability_to_GET Double.client
           (initial (fresh "monocloud:" 86400) refused_then_timed_out T0 false) Hdue).
Defined.

(** C6 at a write refused with NOPERM. *)
Lemma set_permission_error_flips_readOnly_witness :
  let w := redisCache (write_fails_once (noperm "set")) in
  error_with mentions_readonly (noperm "set") = true
  /\ fst (Double.set "monocloud:repo:a/b" (JStr "graph") 3600 (redis w))
     = Throw (noperm "set")
  /\ exists b w',
       set Double.client "repo:a/b" (JStr "graph") (Some 3600) w = (Return b, w')
       /\ isReadOnly (this w') = true
       /\ exists st w'',
            getStatus Double.client (advance 1 w') = (Return st, w'')
            /\ readOnly st = true.
Proof.
  split; [reflexivity |]. split; [reflexivity |].
  destruct (set_permission_error_flips_readOnly Double.client
              (redisCache (write_fails_once (noperm "set")))
              "repo:a/b" (JStr "graph") (Some 3600) (noperm "set") _
              eq_refl eq_refl ltac:(discriminate) eq_refl eq_refl)
    as (b & w' & Hset & Hflag & Hcached).
  exists b, w'. split; [exact Hset |]. split; [exact Hflag |].
  apply Hcached.
  replace w' with (snd (set Double.client "repo:a/b" (JStr "graph") (Some 3600)
                          (redisCache (write_fails_once (noperm "set")))))
    by (rewrite Hset; reflexivity).
  vm_compute. reflexivity.
Defined.

(** C7 does not hold of the code.  When every command of the first probe
    fails with a connection timeout, the sentinel read's error is not a
    permission error, the inner handler (lines 68-72) sets
    [getCommandAllowed] and [isRedisAvailable] to [true], the EXISTS, KEYS and
    write steps are all attempted, and the probe reports
    [available = true]; the "Complete connection failure" handler (lines
    146-162) is not reached. *)
Lemma probe_reports_unreachable_store_available :
  error_with mentions_connection connect_timeout = true
  /\ error_with mentions_noperm connect_timeout = false
  /\ fst (Double.get "monocloud:_connection_test_readonly" Scenario.unreachable)
     = Throw connect_timeout
  /\ fst (RedisCache.new Double.client None None Scenario.unreachable T0 false)
     = Return {| cap_available := true; cap_readOnly := true;
                 cap_keysCommandAllowed := true; cap_getCommandAllowed := true |}
  /\ calls (snd (RedisCache.new Double.client None None Scenario.unreachable T0 false))
     = [GET "monocloud:_connection_test_readonly";
        EXISTS "monocloud:_connection_test_readonly";
        KEYS "monocloud:_test_keys_*";
        SET "monocloud:_connection_test_write" (JStr "test") 10].
Proof. vm_compute. repeat split. Qed.

(** C8 at a store that refuses KEYS, next to a full clear. *)
Lemma clear_without_KEYS_is_memory_only_witness :
  let w := snd (set Double.client "repo:a/b" (JStr "graph") None
                  (redisCache keys_refused)) in
  let full := snd (set Double.client "repo:a/b" (JStr "graph") None
                     (redisCache Double.healthy)) in
  keysCommandAllowed (this w) = false
  /\ size (memoryCache w) = 1%nat
  /\ (exists w',
        clear Double.client (Some "repo:*") w = (Return true, w')
        /\ memoryCache w' = ∅
        /\ calls w' = calls w
        /\ keysCommandAllowed (this w') = false)
  /\ fst (clear Double.client (Some "repo:*") full) = Return true
  /\ keysCommandAllowed (this (snd (clear Double.client (Some "repo:*") full))) = true.
Proof.
  cbv zeta.
  split; [reflexivity |]. split; [reflexivity |].
  destruct (clear_without_KEYS_is_memory_only Double.client
              (snd (set Double.client "repo:a/b" (JStr "graph") None
                      (redisCache keys_refused)))
              (Some "repo:*") eq_refl) as [Hlocal Hfull].
  split; [exact Hlocal |]. split; [reflexivity |].
  apply (Hfull (snd (set Double.client "repo:a/b" (JStr "graph") None
                       (redisCache Double.healthy)))
               (Some "repo:*") _ true).
  - vm_compute. reflexivity.
  - vm_compute. discriminate.
  - reflexivity.
Defined.

(** C10 at [set("counter", 0)]: the value read back is falsy, and [set]
    returns [false]; with GET refused, [set] returns [true]. *)
Lemma set_verifies_the_write_when_reads_are_permitted_witness :
  let w := redisCache Double.healthy in
  let blind := snd (get Double.client "x"
                      (redisCache (read_fails_once (noperm "get")))) in
  (getCommandAllowed (this w) = true
   /\ exists w',
        set Double.client "counter" (JNum 0) None w = (Return false, w')
        /\ memoryCache w' !! "counter" = Some (JNum 0))
  /\ (getCommandAllowed (this blind) = false
      /\ exists w',
           set Double.client "counter" (JNum 0) None blind = (Return true, w')).
Proof.
  cbv zeta. split.
  - split; [reflexivity |].
    destruct (proj1 (set_verifies_the_write_when_reads_are_permitted Double.client
                       (redisCache Double.healthy) "counter" (JNum 0) None _
                       eq_refl eq_refl ltac:(discriminate) eq_refl)
                eq_refl (JNum 0) _ eq_refl)
      as (w' & Hset & Hmem & _).
    exists w'. split; [exact Hset | exact Hmem].
  - split; [reflexivity |].
    destruct (proj2 (set_verifies_the_write_when_reads_are_permitted Double.client
                       (snd (get Double.client "x"
                               (redisCache (read_fails_once (noperm "get")))))
                       "counter" (JNum 0) None _
                       eq_refl eq_refl ltac:(discriminate) eq_refl)
                eq_refl)
      as (w' & Hset & _).
    exists w'. exact Hset.
Defined.

(** * Further properties *)

(** ** [ServerCache] *)

Section ServerCacheFacts.
Implicit Types c : ServerCache.t.

(** X1.  [ServerCache]: an entry set at [now] with [ttl] (one hour when
    omitted) is returned unchanged by [get], and reported by [has], at every
    instant up to and including [now + ttl]; [get] leaves the cache as it is,
    and [set] leaves every other key as it was. *)
Theorem ServerCache_set_get_before_expiry c now key d ttl now' :
  now' <= now + default (ServerCache.defaultTTL c) ttl ->
  ServerCache.get now' key (ServerCache.set now key d ttl c)
    = (d, ServerCache.set now key d ttl c)
  /\ ServerCache.has now' key (ServerCache.set now key d ttl c) = true
  /\ forall other, other <> key ->
       ServerCache.cache (ServerCache.set now key d ttl c) !! other
       = ServerCache.cache c !! other.
Proof.
  intros Hlive.
  unfold ServerCache.get, ServerCache.has, ServerCache.set; cbn.
  rewrite lookup_insert_eq; cbn.
  assert ((now + default (ServerCache.defaultTTL c) ttl <? now') = false) as ->
    by (apply Z.ltb_ge; lia).
  assert ((now' <=? now + default (ServerCache.defaultTTL c) ttl) = true) as ->
    by (apply Z.leb_le; lia).
  repeat split. intros other Hother. by rewrite lookup_insert_ne.
Qed.



(** X4.  [ServerCache.cleanup] run at [now] changes no answer of [has] or
    [get] at [now] or later, and every entry it keeps was there before and
    expires at [now] or later. *)
Theorem ServerCache_cleanup_is_invisible c now key later :
  now <= later ->
  ServerCache.has later key (ServerCache.cleanup now c) = ServerCache.has later key c
  /\ fst (ServerCache.get later key (ServerCache.cleanup now c))
     = fst (ServerCache.get later key c)
  /\ forall entry,
       ServerCache.cache (ServerCache.cleanup now c) !! key = Some entry ->
       ServerCache.cache c !! key = Some entry /\ now <= ServerCache.expiresAt entry.
Proof.
  intros Hlater.
  assert (Hkept : forall entry,
            ServerCache.cache (ServerCache.cleanup now c) !! key = Some entry <->
            ServerCache.cache c !! key = Some entry /\ now <= ServerCache.expiresAt entry).
  { intros entry. unfold ServerCache.cleanup; cbn.
    rewrite map_lookup_filter_Some; cbn. intuition lia. }
  split; [| split].
  - unfold ServerCache.has.
    destruct (ServerCache.cache (ServerCache.cleanup now c) !! key) as [e|] eqn:Hc in |- *.
    + apply Hkept in Hc as [-> _]. done.
    + destruct (ServerCache.cache c !! key) as [e|] eqn:Ho in |- *; [| done].
      destruct (Z.leb_spec later (ServerCache.expiresAt e)); [| done].
      assert (Some e = None) by (rewrite <- Hc; symmetry; apply Hkept; split; [done | lia]).
      discriminate.
  - unfold ServerCache.get.
    destruct (ServerCache.cache (ServerCache.cleanup now c) !! key) as [e|] eqn:Hc in |- *.
    + apply Hkept in Hc as [-> _].
      destruct (ServerCache.expiresAt e <? later); done.
    + destruct (ServerCache.cache c !! key) as [e|] eqn:Ho in |- *; [| done].
      destruct (Z.ltb_spec (ServerCache.expiresAt e) later); [done |].
      assert (Some e = None) by (rewrite <- Hc; symmetry; apply Hkept; split; [done | lia]).
      discriminate.
  - intros entry. apply Hkept.
Qed.

(** X5.  [ServerCache]: after [delete(k)], [k] is absent for [get] and [has]
    and every other key answers as before; after [clear()], every key is
    absent. *)
Theorem ServerCache_delete_and_clear_forget c now key :
  (fst (ServerCache.get now key (ServerCache.delete key c)) = JNull
   /\ ServerCache.has now key (ServerCache.delete key c) = false
   /\ forall other, other <> key ->
        ServerCache.has now other (ServerCache.delete key c)
        = ServerCache.has now other c
        /\ fst (ServerCache.get now other (ServerCache.delete key c))
           = fst (ServerCache.get now other c))
  /\ ServerCache.get now key (ServerCache.clear c) = (JNull, ServerCache.clear c)
  /\ ServerCache.has now key (ServerCache.clear c) = false.
Proof.
  unfold ServerCache.get, ServerCache.has, ServerCache.delete, ServerCache.clear; cbn.
  rewrite lookup_delete_eq, lookup_empty. repeat split.
  - by rewrite lookup_delete_ne.
  - rewrite lookup_delete_ne by done.
    destruct (ServerCache.cache c !! other) as [e|]; [| done].
    destruct (ServerCache.expiresAt e <? now); done.
Qed.

End ServerCacheFacts.

(** ** [RedisCache]: [has], [delete], back-fill, [clear] *)

Section RedisCacheFacts.
Context {R : Type} (client : Redis R).
Implicit Types w : world R.

(** X6.  [RedisCache.has]: a key held locally is reported without a request;
    on a local miss with the tier marked unavailable the answer is [false]
    without a request; otherwise one EXISTS is sent and the answer is whether
    it replied 1, [false] when it raised.  In every case the Local Tier and
    the status flags are left as they were. *)
Theorem has_asks_EXISTS_on_a_local_miss_only w key :
  (forall v, memoryCache w !! key = Some v -> has client key w = (Return true, w))
  /\ (memoryCache w !! key = None -> isRedisAvailable (this w) = false ->
      has client key w = (Return false, w))
  /\ (memoryCache w !! key = None -> isRedisAvailable (this w) = true ->
      forall answer r',
        redis_exists client (prefix (this w) +:+ key) (redis w) = (answer, r') ->
        exists w',
          has client key w
            = (Return match answer with Return n => n =? 1 | Throw _ => false end, w')
          /\ memoryCache w' = memoryCache w
          /\ this w' = this w
          /\ calls w' = (calls w ++ [EXISTS (prefix (this w) +:+ key)])%list).
Proof.
  split; [| split].
  - intros v Hhit. unfold has, bind, read, ret. rewrite Hhit. reflexivity.
  - intros Hmiss Hav. unfold has, bind, read, ret. rewrite Hmiss, Hav. reflexivity.
  - intros Hmiss Hav answer r' Hrun.
    cut (wp (has client key)
           (fun b w' =>
              b = match answer with Return n => n =? 1 | Throw _ => false end
              /\ memoryCache w' = memoryCache w /\ this w' = this w
              /\ calls w' = (calls w ++ [EXISTS (prefix (this w) +:+ key)])%list)
           never w).
    { intros H. apply wp_returns in H as (b & w' & Hhas & -> & H). eauto. }
    unfold has. wp_step. wp_step. simp. rewrite Hmiss.
    open_world w. wp_run; done.
Qed.

(** X7.  [RedisCache.delete] always removes the key from the Local Tier.
    With the tier unavailable or read-only it sends nothing and returns
    [true]; otherwise it sends one DEL of the prefixed key and returns [true]
    if that succeeds, [false] if it raises, recording [isReadOnly = true]
    exactly when the error is a permission error; it never marks the tier
    unavailable. *)
Theorem delete_removes_locally_whatever_the_tier_does w key :
  exists b w',
    delete client key w = (Return b, w')
    /\ memoryCache w' = base.delete key (memoryCache w)
    /\ (isRedisAvailable (this w) = false \/ isReadOnly (this w) = true ->
        b = true /\ calls w' = calls w /\ this w' = this w)
    /\ (isRedisAvailable (this w) = true -> isReadOnly (this w) = false ->
        forall answer r',
          redis_del client [prefix (this w) +:+ key] (redis w) = (answer, r') ->
          calls w' = (calls w ++ [DEL [prefix (this w) +:+ key]])%list
          /\ isRedisAvailable (this w') = true
          /\ match answer with
             | Return _ => b = true /\ isReadOnly (this w') = false
             | Throw e => b = false
                          /\ isReadOnly (this w') = error_with mentions_readonly e
             end).
Proof.
  apply wp_returns.
  open_world w. unfold delete.
  destruct av, ro; wp_run; simp.
  all: split; [done |]; split; [intros [|]; done |].
  all: intros Ha Hb; try discriminate.
  all: intros answer r2 Hrun; same_answer; simp; repeat split; done.
Qed.

(** X8.  In read-only mode [delete(k)] is local only: it returns [true], and
    if the persistent tier still holds a truthy value for [k], the next
    [get(k)] returns that value and stores it in the Local Tier again. *)
Theorem deleted_key_returns_in_read_only_mode w key d r' :
  isRedisAvailable (this w) = true ->
  isReadOnly (this w) = true ->
  getCommandAllowed (this w) = true ->
  redis_get client (prefix (this w) +:+ key) (redis w) = (Return d, r') ->
  truthy d = true ->
  exists w1 w2,
    delete client key w = (Return true, w1)
    /\ memoryCache w1 !! key = None
    /\ get client key w1 = (Return d, w2)
    /\ memoryCache w2 !! key = Some d.
Proof.
  intros Hav Hro Hga Hread Hd.
  assert (Hdel : wp (delete client key)
            (fun b w1 => b = true /\ memoryCache w1 = base.delete key (memoryCache w)
               /\ this w1 = this w /\ redis w1 = redis w) never w).
  { open_world w. unfold delete. wp_run; done. }
  apply wp_returns in Hdel as (b & w1 & Hdel & -> & Hm1 & Ht1 & Hr1).
  assert (Hmiss : memoryCache w1 !! key = None)
    by (rewrite Hm1; apply lookup_delete_eq).
  assert (Hget : wp (get client key)
            (fun v w2 => v = d /\ memoryCache w2 !! key = Some d) never w1).
  { unfold get. wp_step. wp_step. simp. rewrite Hmiss.
    rewrite <- Ht1, <- Hr1 in Hread. rewrite <- Ht1 in Hav, Hga.
    clear Hdel Hm1 Ht1 Hr1 Hmiss Hro.
    open_world w1. wp_run; try congruence.
    rewrite lookup_insert_eq. done. }
  apply wp_returns in Hget as (v & w2 & Hget & -> & Hm2).
  eauto 10.
Qed.

(** X9.  [RedisCache.get] on a local miss, with reads permitted: a truthy
    reply is returned and stored in the Local Tier, so the next [get] needs no
    request; a falsy reply (null, 0, empty string, false) is returned as
    [null] and nothing is stored.  The status flags are left as they were. *)
Theorem get_back_fills_truthy_hits w key d r' :
  memoryCache w !! key = None ->
  isRedisAvailable (this w) = true ->
  getCommandAllowed (this w) = true ->
  redis_get client (prefix (this w) +:+ key) (redis w) = (Return d, r') ->
  exists w1,
    get client key w = (Return (if truthy d then d else JNull), w1)
    /\ memoryCache w1 = (if truthy d then <[key := d]> (memoryCache w) else memoryCache w)
    /\ calls w1 = (calls w ++ [GET (prefix (this w) +:+ key)])%list
    /\ this w1 = this w
    /\ (truthy d = true ->
        exists w2, get client key w1 = (Return d, w2) /\ calls w2 = calls w1).
Proof.
  intros Hmiss Hav Hga Hread.
  assert (Hget : wp (get client key)
            (fun v w1 => v = (if truthy d then d else JNull)
               /\ memoryCache w1
                  = (if truthy d then <[key := d]> (memoryCache w) else memoryCache w)
               /\ calls w1 = (calls w ++ [GET (prefix (this w) +:+ key)])%list
               /\ this w1 = this w) never w).
  { unfold get. wp_step. wp_step. simp. rewrite Hmiss.
    open_world w. wp_run; try done.
    all: match goal with H : truthy _ = _ |- _ => rewrite H end; done. }
  apply wp_returns in Hget as (v & w1 & Hget & -> & Hm1 & Hc1 & Ht1).
  exists w1. repeat split; try done.
  intros Hd. rewrite Hd in Hm1.
  assert (Hhit : memoryCache w1 !! key = Some d)
    by (rewrite Hm1; apply lookup_insert_eq).
  destruct (wp_returns _ _ _ (get_local_hit client w1 key d Hhit))
    as (v & w2 & Hget2 & -> & Hc2 & _).
  eauto.
Qed.

(** X10.  [RedisCache.set(k, undefined)] with the tier available and writable
    fails its serialization check: it returns [false] without sending a
    command or changing the status, yet the Local Tier holds the key, and
    [has(k)] is [true]. *)
Theorem set_undefined_stays_local w key ttl :
  isRedisAvailable (this w) = true ->
  isReadOnly (this w) = false ->
  exists w1 w2,
    set client key JUndefined ttl w = (Return false, w1)
    /\ calls w1 = calls w
    /\ this w1 = this w
    /\ memoryCache w1 !! key = Some JUndefined
    /\ has client key w1 = (Return true, w2).
Proof.
  intros Hav Hro.
  assert (Hset : wp (set client key JUndefined ttl)
            (fun b w1 => b = false /\ calls w1 = calls w /\ this w1 = this w
               /\ memoryCache w1 !! key = Some JUndefined) never w).
  { open_world w.
    unfold wp, set, JSON_roundtrip, getFullKey, try_catch, bind, read,
      on_memoryCache, emit, update, ret, throw; simpl.
    rewrite lookup_insert_eq. done. }
  apply wp_returns in Hset as (b & w1 & Hset & -> & Hc & Ht & Hm).
  destruct (wp_returns _ _ _ (has_local_hit client w1 key _ Hm))
    as (h & w2 & Hhas & -> & _).
  eauto 10.
Qed.

End RedisCacheFacts.

Section RedisCacheCommands.
Context {R : Type} (client : Redis R).
Implicit Types w : world R.

Ltac sent_only :=
  first
    [ done
    | exists []; split; [by rewrite app_nil_r | constructor]
    | eexists; split;
      [rewrite <- ?app_assoc; reflexivity | repeat constructor; done] ].

(** X11.  [get], [set], [has] and [delete] on [k] return without raising, and
    every command they send names the single key [prefix + k]: none of them
    enumerates keys or touches another key. *)
Theorem point_operations_stay_in_their_key w key data ttl :
  let fullKey := prefix (this w) +:+ key in
  (exists v w' cmds, get client key w = (Return v, w')
     /\ calls w' = (calls w ++ cmds)%list /\ Forall (addresses fullKey) cmds)
  /\ (exists b w' cmds, set client key data ttl w = (Return b, w')
        /\ calls w' = (calls w ++ cmds)%list /\ Forall (addresses fullKey) cmds)
  /\ (exists b w' cmds, has client key w = (Return b, w')
        /\ calls w' = (calls w ++ cmds)%list /\ Forall (addresses fullKey) cmds)
  /\ (exists b w' cmds, delete client key w = (Return b, w')
        /\ calls w' = (calls w ++ cmds)%list /\ Forall (addresses fullKey) cmds).
Proof.
  cbv zeta.
  assert (Hshape : forall A (m : M A),
            wp m (fun _ w' => exists cmds, calls w' = (calls w ++ cmds)%list
                    /\ Forall (addresses (prefix (this w) +:+ key)) cmds) never w ->
            exists a w' cmds, m w = (Return a, w')
              /\ calls w' = (calls w ++ cmds)%list
              /\ Forall (addresses (prefix (this w) +:+ key)) cmds).
  { intros A m H. apply wp_returns in H as (a & w' & Hm & cmds & H). eauto 10. }
  repeat split; apply Hshape.
  - unfold get. wp_run; sent_only.
  - unfold set. wp_run; sent_only.
  - unfold has. wp_run; sent_only.
  - unfold delete. wp_run; sent_only.
Qed.

(** X12.  [RedisCache.clear] with the tier available, writable and KEYS
    permitted enumerates [prefix + pattern] ([prefix + "*"] for a missing or
    empty pattern).  An empty listing sends no DEL and returns [true]; a
    non-empty one sends a single DEL of exactly the keys listed and returns
    whether it succeeded.  The Local Tier is empty either way. *)
Theorem clear_deletes_what_KEYS_listed w pattern ks r1 :
  let fullPattern :=
    prefix (this w) +:+ match pattern with
                        | Some p => if nonempty p then p else "*"
                        | None => "*"
                        end in
  isRedisAvailable (this w) = true ->
  isReadOnly (this w) = false ->
  keysCommandAllowed (this w) = true ->
  redis_keys client fullPattern (redis w) = (Return ks, r1) ->
  (ks = [] ->
   exists w', clear client pattern w = (Return true, w')
     /\ memoryCache w' = ∅
     /\ calls w' = (calls w ++ [KEYS fullPattern])%list)
  /\ (ks <> [] ->
      forall answer r2,
        redis_del client ks r1 = (answer, r2) ->
        exists w',
          clear client pattern w
            = (Return match answer with Return _ => true | Throw _ => false end, w')
          /\ memoryCache w' = ∅
          /\ calls w' = (calls w ++ [KEYS fullPattern; DEL ks])%list).
Proof.
  cbv zeta. intros Hav Hro Hka Hkeys. split.
  - intros ->.
    cut (wp (clear client pattern)
           (fun b w' => b = true /\ memoryCache w' = ∅
              /\ calls w' = (calls w ++ [KEYS (prefix (this w) +:+
                   match pattern with
                   | Some p => if nonempty p then p else "*"
                   | None => "*"
                   end)])%list) never w).
    { intros H. apply wp_returns in H as (b & w' & Hc & -> & H). eauto. }
    open_world w. unfold clear.
    destruct pattern as [p|]; [destruct (nonempty p) eqn:Hp |]; wp_run; done.
  - intros Hne answer r2 Hdel.
    cut (wp (clear client pattern)
           (fun b w' => b = match answer with Return _ => true | Throw _ => false end
              /\ memoryCache w' = ∅
              /\ calls w' = (calls w ++ [KEYS (prefix (this w) +:+
                   match pattern with
                   | Some p => if nonempty p then p else "*"
                   | None => "*"
                   end); DEL ks])%list) never w).
    { intros H. apply wp_returns in H as (b & w' & Hc & -> & H). eauto. }
    open_world w. unfold clear.
    destruct ks as [|k ks]; [done |].
    destruct pattern as [p|]; [destruct (nonempty p) eqn:Hp |]; wp_run;
      rewrite <- ?app_assoc; done.
Qed.


End RedisCacheCommands.

(** ** The probe and [getStatus] *)

Section ProbeFacts.
Context {R : Type} (client : Redis R).
Implicit Types w : world R.

(** X14.  The write test of the probe (lines 110-145) reports the tier
    writable only when both the SET and the DEL of its sentinel key succeed:
    if either raises, it sets [isReadOnly = true] or raises a TypeError into
    the probe's outer handler. *)
Theorem write_test_fails_closed w key a1 r1 a2 r2 :
  redis_set client key (JStr "test") 10 (redis w) = (a1, r1) ->
  redis_del client [key] r1 = (a2, r2) ->
  match probe_write client key w with
  | (Return _, w') =>
      isReadOnly (this w')
      = match a1, a2 with Return _, Return _ => false | _, _ => true end
  | (Throw e, _) =>
      instanceofError e = true
      /\ match a1, a2 with Return _, Return _ => False | _, _ => True end
  end.
Proof.
  intros Hset Hdel.
  change (wp (probe_write client key)
            (fun _ w' => isReadOnly (this w')
               = match a1, a2 with Return _, Return _ => false | _, _ => true end)
            (fun e _ => instanceofError e = true
               /\ match a1, a2 with Return _, Return _ => False | _, _ => True end) w).
  open_world w. unfold probe_write. wp_run; simp; done.
Qed.

Lemma same_settings_refl w : same_settings w w.
Proof. repeat split. Qed.

Lemma same_settings_trans w1 w2 w3 :
  same_settings w1 w2 -> same_settings w2 w3 -> same_settings w1 w3.
Proof. unfold same_settings. intuition congruence. Qed.

Lemma probe_get_keeps_settings key w :
  wp (probe_get client key) (fun _ w' => same_settings w w')
     (fun e w' => same_settings w w' /\ instanceofError e = true) w.
Proof. unfold probe_get, same_settings. wp_run; done. Qed.

Lemma probe_exists_keeps_settings key w :
  wp (probe_exists client key) (fun _ w' => same_settings w w')
     (fun e w' => same_settings w w' /\ instanceofError e = true) w.
Proof. unfold probe_exists, same_settings. wp_run; done. Qed.

Lemma probe_keys_keeps_settings pattern w :
  wp (probe_keys client pattern) (fun _ w' => same_settings w w')
     (fun e w' => same_settings w w' /\ instanceofError e = true) w.
Proof. unfold probe_keys, same_settings. wp_run; done. Qed.

Lemma probe_write_keeps_settings key w :
  wp (probe_write client key) (fun _ w' => same_settings w w')
     (fun e w' => same_settings w w' /\ instanceofError e = true) w.
Proof. unfold probe_write, same_settings. wp_run; done. Qed.

Lemma connection_failed_keeps_settings e w :
  instanceofError e = true ->
  wp (connection_failed e) (fun _ w' => same_settings w w') never w.
Proof. intros He. unfold connection_failed, same_settings. wp_run; done. Qed.

Lemma checkRedisConnection_keeps_settings w :
  wp (checkRedisConnection client)
     (fun caps w' =>
        caps = {| cap_available := isRedisAvailable (this w');
                  cap_readOnly := isReadOnly (this w');
                  cap_keysCommandAllowed := keysCommandAllowed (this w');
                  cap_getCommandAllowed := getCommandAllowed (this w') |}
        /\ memoryCache w' = memoryCache w
        /\ clock w' = clock w
        /\ connectionCheckInterval (this w') = connectionCheckInterval (this w)
        /\ (connectionCheckInterval (this w) <= clock w - lastConnectionCheck (this w) ->
            lastConnectionCheck (this w') = clock w)) never w.
Proof.
  unfold checkRedisConnection. do 4 (wp_step; simp).
  match goal with |- context [?a <? ?b] => destruct (a <? b) eqn:Hdue end.
  - wp_run. repeat split. apply Z.ltb_lt in Hdue. lia.
  - wp_step. wp_step. simp.
    set (w0 := {| this := with_lastConnectionCheck (clock w) (this w);
                  memoryCache := memoryCache w; redis := redis w;
                  calls := calls w; effects := effects w; clock := clock w;
                  window := window w |}).
    assert (Hcatch : forall e w1,
              same_settings w0 w1 /\ instanceofError e = true ->
              wp (connection_failed e) (fun _ w' => same_settings w0 w') never w1).
    { intros e w1 [Hs He].
      eapply wp_mono; [apply (connection_failed_keeps_settings _ _ He) | | done].
      intros ? w2 Hs2. cbv beta in Hs2. eapply same_settings_trans; eassumption. }
    eapply wp_seq with (Q1 := fun _ w' => same_settings w0 w') (E1 := never);
      [| intros ? w' Hs; wp_run; unfold same_settings in Hs; simp_all;
         intuition congruence | done].
    apply wp_try_catch.
    eapply wp_seq; [apply probe_get_keeps_settings | |
                    intros e w1 Hs; apply Hcatch; exact Hs].
    intros ? w1 Hs1. cbv beta in Hs1.
    eapply wp_seq; [apply probe_exists_keeps_settings | |
                    intros e w2 [Hs He]; apply Hcatch; split;
                    [eapply same_settings_trans; eassumption | done]].
    intros ? w2 Hs2. cbv beta in Hs2.
    eapply wp_seq; [apply probe_keys_keeps_settings | |
                    intros e w3 [Hs He]; apply Hcatch; split;
                    [eapply same_settings_trans; [| eassumption];
                     eapply same_settings_trans; eassumption | done]].
    intros ? w3 Hs3. cbv beta in Hs3.
    eapply wp_mono; [apply probe_write_keeps_settings | |
                     intros e w4 [Hs He]; apply Hcatch; split;
                     [eapply same_settings_trans; [| eassumption];
                      eapply same_settings_trans; [| eassumption];
                      eapply same_settings_trans; eassumption | done]].
    intros ? w4 Hs4. cbv beta in Hs4.
    eapply same_settings_trans; [| eassumption].
    eapply same_settings_trans; [| eassumption].
    eapply same_settings_trans; eassumption.
Qed.

(** X15.  Once a probe has run, a [checkRedisConnection] less than one
    interval later returns the same capabilities without sending a command or
    changing anything. *)
Theorem probe_runs_at_most_once_per_interval w dt :
  connectionCheckInterval (this w) <= clock w - lastConnectionCheck (this w) ->
  0 <= dt < connectionCheckInterval (this w) ->
  exists caps w1,
    checkRedisConnection client w = (Return caps, w1)
    /\ checkRedisConnection client (advance dt w1) = (Return caps, advance dt w1).
Proof.
  intros Hdue Hdt.
  destruct (wp_returns _ _ _ (checkRedisConnection_keeps_settings w))
    as (caps & w1 & Hrun & -> & _ & Hclk & Hivl & Hlast).
  eexists _, w1. split; [exact Hrun |].
  rewrite checkRedisConnection_cached; [reflexivity |].
  cbn. rewrite Hclk, Hivl, (Hlast Hdue). lia.
Qed.

(** X16.  [getStatus] between probes: with the tier unavailable or KEYS not
    permitted it sends nothing, changes nothing and reports [keysCount = 0];
    otherwise it sends the one command [KEYS prefix*] and reports the length
    of the reply, or 0 when it raises, clearing [keysCommandAllowed] exactly
    when the error mentions [NOPERM] and [keys].  [memoryKeysCount] is the
    size of the Local Tier. *)
Theorem getStatus_counts_keys_when_permitted w :
  clock w - lastConnectionCheck (this w) < connectionCheckInterval (this w) ->
  (isRedisAvailable (this w) = false \/ keysCommandAllowed (this w) = false ->
   exists st, getStatus client w = (Return st, w) /\ keysCount st = 0%nat
              /\ memoryKeysCount st = size (memoryCache w))
  /\ (isRedisAvailable (this w) = true -> keysCommandAllowed (this w) = true ->
      forall answer r',
        redis_keys client (prefix (this w) +:+ "*") (redis w) = (answer, r') ->
        exists st w',
          getStatus client w = (Return st, w')
          /\ calls w' = (calls w ++ [KEYS (prefix (this w) +:+ "*")])%list
          /\ keysCount st = match answer with Return ks => length ks | Throw _ => 0%nat end
          /\ keysCommandAllowed_ st
             = match answer with
               | Return _ => true
               | Throw e => negb (error_with mentions_noperm_keys e)
               end
          /\ memoryKeysCount st = size (memoryCache w)).
Proof.
  intros Hfresh. split.
  - intros Hskip.
    cut (wp (getStatus client)
           (fun st w' => w' = w /\ keysCount st = 0%nat
              /\ memoryKeysCount st = size (memoryCache w)) never w).
    { intros H. apply wp_returns in H as (st & w' & Hst & -> & H). eauto. }
    unfold getStatus. apply wp_bind.
    unfold wp at 1. rewrite (checkRedisConnection_cached client w Hfresh).
    clear Hfresh. open_world w.
    destruct Hskip as [-> | ->]; [| destruct av]; wp_run; done.
  - intros Hav Hka answer r' Hkeys.
    cut (wp (getStatus client)
           (fun st w' =>
              calls w' = (calls w ++ [KEYS (prefix (this w) +:+ "*")])%list
              /\ keysCount st
                 = match answer with Return ks => length ks | Throw _ => 0%nat end
              /\ keysCommandAllowed_ st
                 = match answer with
                   | Return _ => true
                   | Throw e => negb (error_with mentions_noperm_keys e)
                   end
              /\ memoryKeysCount st = size (memoryCache w)) never w).
    { intros H. apply wp_returns in H as (st & w' & Hst & H). eauto. }
    unfold getStatus. apply wp_bind.
    unfold wp at 1. rewrite (checkRedisConnection_cached client w Hfresh).
    clear Hfresh. open_world w. wp_run; simp; try done.
    all: repeat split; try done.
    all: match goal with H : error_with _ _ = _ |- _ => rewrite H end; done.
Qed.

End ProbeFacts.

(** ** [analyzeRepository] *)

Section ActionFacts.
Context {R : Type} (client : Redis R).
Context (toLowerCase trim : string -> string).
Implicit Types w : world R.

Lemma get_result_is_cached w key :
  wp (get client key)
     (fun v w' =>
        (truthy v = true -> memoryCache w' !! key = Some v)
        /\ (truthy v = false -> memoryCache w' = memoryCache w)) never w.
Proof.
  unfold get. wp_run; try done.
  all: split; [intros Hv | intros Hv]; try done; try congruence.
  rewrite lookup_insert_eq. done.
Qed.

Lemma analyzeRepository_spec analyzeMonorepo w repoUrl :
  wp (Actions.analyzeRepository client toLowerCase trim analyzeMonorepo repoUrl)
     (fun response w' =>
        match response with
        | Actions.Analysis d true =>
            truthy d = true
            /\ memoryCache w' !! Actions.cacheKey toLowerCase trim repoUrl = Some d
        | Actions.Analysis d false =>
            analyzeMonorepo repoUrl = Return d
            /\ memoryCache w' !! Actions.cacheKey toLowerCase trim repoUrl = Some d
        | Actions.Failure message =>
            memoryCache w' = memoryCache w
            /\ exists e,
                 analyzeMonorepo repoUrl = Throw e
                 /\ message = match e with
                              | ErrorObject m => m
                              | _ => "Failed to analyze repository"
                              end
        end) never w.
Proof.
  unfold Actions.analyzeRepository.
  apply wp_try_catch. wp_step. wp_step. simp.
  eapply wp_seq; [apply get_result_is_cached | | done].
  intros v w1 [Hhit Hmiss]. simp_all.
  destruct (truthy v) eqn:Hv.
  - wp_run. auto.
  - specialize (Hmiss eq_refl).
    do 4 (wp_step; simp). wp_step. unfold wp at 1.
    destruct (analyzeMonorepo repoUrl) as [d|e] eqn:Hrun.
    + wp_step. wp_step. wp_step. wp_step. simp.
      eapply wp_seq; [apply set_stores | | done].
      intros saved w2 Hm2. simp_all. wp_run.
      split; [reflexivity |]. rewrite Hm2. apply lookup_insert_eq.
    + wp_run. eauto.
Qed.

(** X17.  [analyzeRepository] never raises.  Data returned from the cache is
    truthy; data returned fresh is what [analyzeMonorepo] yielded; in both
    cases the Local Tier holds it under the repository's key afterwards.  A
    failure response is the analyzer's failure, with the Error's message or
    the fixed text, and leaves the Local Tier as it was. *)
Theorem analyzeRepository_outcomes analyzeMonorepo w repoUrl :
  let key := Actions.cacheKey toLowerCase trim repoUrl in
  exists response w',
    Actions.analyzeRepository client toLowerCase trim analyzeMonorepo repoUrl w
      = (Return response, w')
    /\ match response with
       | Actions.Analysis d true =>
           truthy d = true /\ memoryCache w' !! key = Some d
       | Actions.Analysis d false =>
           analyzeMonorepo repoUrl = Return d /\ memoryCache w' !! key = Some d
       | Actions.Failure message =>
           memoryCache w' = memoryCache w
           /\ exists e,
                analyzeMonorepo repoUrl = Throw e
                /\ message = match e with
                             | ErrorObject m => m
                             | _ => "Failed to analyze repository"
                             end
       end.
Proof. cbv zeta. apply wp_returns. apply analyzeRepository_spec. Qed.

(** X18.  After [analyzeRepository] has returned a fresh, truthy analysis,
    a call for any URL with the same lower-cased, trimmed form returns that
    analysis with [fromCache = true], whatever the analyzer would now yield,
    and sends nothing to the persistent tier. *)
Theorem analyzeRepository_memoizes analyzeMonorepo w repoUrl d w1 :
  Actions.analyzeRepository client toLowerCase trim analyzeMonorepo repoUrl w
    = (Return (Actions.Analysis d false), w1) ->
  truthy d = true ->
  forall again analyzeMonorepo',
    trim (toLowerCase again) = trim (toLowerCase repoUrl) ->
    exists w2,
      Actions.analyzeRepository client toLowerCase trim analyzeMonorepo' again w1
        = (Return (Actions.Analysis d true), w2)
      /\ calls w2 = calls w1
      /\ memoryCache w2 = memoryCache w1.
Proof.
  intros Hfirst Hd again analyzeMonorepo' Hsame.
  pose proof (analyzeRepository_spec analyzeMonorepo w repoUrl) as Hpost.
  unfold wp in Hpost. rewrite Hfirst in Hpost. destruct Hpost as [_ Hcached].
  cut (wp (Actions.analyzeRepository client toLowerCase trim analyzeMonorepo' again)
         (fun response w2 => response = Actions.Analysis d true
            /\ calls w2 = calls w1 /\ memoryCache w2 = memoryCache w1) never w1).
  { intros H. apply wp_returns in H as (response & w2 & Hrun & -> & H). eauto. }
  unfold Actions.analyzeRepository, Actions.cacheKey in *. rewrite Hsame.
  apply wp_try_catch. wp_step. wp_step. simp.
  eapply wp_seq; [apply (get_local_hit client _ _ d) | | done].
  - simp. exact Hcached.
  - intros v w2 (-> & Hc & _ & Hm). simp_all. rewrite Hd. wp_run. done.
Qed.

End ActionFacts.

(** ** The admin routes *)

Section RouteFacts.
Context {R : Type} (client : Redis R).
Implicit Types w : world R.





(** X21.  [POST /api/redis/clear-cache] between probes, with the tier
    writable and KEYS not permitted: whatever the pattern, the route empties
    the Local Tier, sends nothing to the persistent tier and answers 200 with
    [success: true] and [keysCommandAllowed: false]. *)
Theorem clear_cache_route_ignores_the_pattern_without_KEYS w pattern :
  clock w - lastConnectionCheck (this w) < connectionCheckInterval (this w) ->
  isReadOnly (this w) = false ->
  keysCommandAllowed (this w) = false ->
  exists w',
    ClearCacheRoute.POST client (Return pattern) w
      = (Return {| status_code := 200;
                   json := JObj
                     [("success", JBool true);
                      ("message",
                       JStr "KEYS command not permitted. Only memory cache was cleared.");
                      ("keysCommandAllowed", JBool false)] |}, w')
    /\ memoryCache w' = ∅
    /\ calls w' = calls w.
Proof.
  intros Hfresh Hro Hka.
  cut (wp (ClearCacheRoute.POST client (Return pattern))
         (fun response w' =>
            response = {| status_code := 200;
                          json := JObj
                            [("success", JBool true);
                             ("message",
                              JStr "KEYS command not permitted. Only memory cache was cleared.");
                             ("keysCommandAllowed", JBool false)] |}
            /\ memoryCache w' = ∅ /\ calls w' = calls w) never w).
  { intros H. apply wp_returns in H as (response & w' & Hrun & -> & H). eauto. }
  unfold ClearCacheRoute.POST, ClearCacheRoute.isAuthenticated.
  apply wp_try_catch. cbn [negb]. wp_step. unfold wp at 1.
  unfold getStatus. wp_step. wp_step.
  unfold wp at 1. rewrite (checkRedisConnection_cached client w Hfresh).
  clear Hfresh. open_world w.
  unfold clear. destruct av; wp_run; done.
Qed.

Lemma prefix_app (p s : string) : String.prefix p (p +:+ s) = true.
Proof.
  induction p as [|c p IH]; simpl; [by destruct s |].
  destruct (ascii_dec c c); [exact IH | done].
Qed.

(** X22.  [GET /api/redis/key]: a key given bare and the same key given with
    the [monocloud:] prefix read the same persistent key with one GET, and the
    Local Tier is left as it is. *)
Theorem key_route_takes_bare_and_prefixed_keys w key :
  nonempty key = true ->
  String.prefix "monocloud:" key = false ->
  forall given, given = key \/ given = "monocloud:" +:+ key ->
  exists response w',
    KeyRoute.GET client (Some given) w = (Return response, w')
    /\ calls w' = (calls w ++ [GET ("monocloud:" +:+ key)])%list
    /\ memoryCache w' = memoryCache w
    /\ redis w' = snd (redis_get client ("monocloud:" +:+ key) (redis w)).
Proof.
  intros Hk Hbare given Hgiven.
  apply wp_returns. unfold KeyRoute.GET.
  assert (admin_full_key given = "monocloud:" +:+ key) as ->.
  { unfold admin_full_key. destruct Hgiven as [-> | ->].
    - by rewrite Hbare.
    - by rewrite (prefix_app "monocloud:" key). }
  assert (nonempty given = true) as -> by (destruct Hgiven as [-> | ->]; done).
  wp_run.
  all: match goal with H : redis_get _ _ _ = _ |- _ => rewrite H end; done.
Qed.

(** X23.  [DELETE /api/redis/key] sends one DEL of the prefixed key and does
    not touch the Local Tier: a value cached locally is still returned by
    [redisCache.get] afterwards, without a request. *)
Theorem key_route_DELETE_leaves_the_local_copy w key cached v :
  nonempty key = true ->
  memoryCache w !! cached = Some v ->
  exists response w1 w2,
    KeyRoute.DELETE client (Return (Some key)) w = (Return response, w1)
    /\ calls w1 = (calls w ++ [DEL [admin_full_key key]])%list
    /\ memoryCache w1 = memoryCache w
    /\ get client cached w1 = (Return v, w2)
    /\ calls w2 = calls w1.
Proof.
  intros Hk Hhit.
  assert (H : wp (KeyRoute.DELETE client (Return (Some key)))
            (fun _ w1 => calls w1 = (calls w ++ [DEL [admin_full_key key]])%list
               /\ memoryCache w1 = memoryCache w) never w).
  { unfold KeyRoute.DELETE. apply wp_try_catch. wp_step.
    unfold wp at 1. cbn beta iota. rewrite Hk. wp_run; done. }
  apply wp_returns in H as (response & w1 & Hrun & Hc & Hm).
  rewrite <- Hm in Hhit.
  destruct (wp_returns _ _ _ (get_local_hit client w1 cached v Hhit))
    as (v' & w2 & Hget & -> & Hc2 & _).
  eauto 10.
Qed.

End RouteFacts.

(** ** The validation route and the speech route *)

Section ValidateFacts.
Context {R : Type} (client : Redis R).
Implicit Types w : world R.

Lemma check_counts key res w :
  exists res' w',
    ValidateRoute.check client key res w = (Return tt, res', w')
    /\ ValidateRoute.total res' = ValidateRoute.total res
    /\ (ValidateRoute.valid res' + ValidateRoute.cleaned res' + ValidateRoute.errors res'
        = S (ValidateRoute.valid res + ValidateRoute.cleaned res + ValidateRoute.errors res))%nat
    /\ (ValidateRoute.invalid res' - ValidateRoute.cleaned res'
        >= ValidateRoute.invalid res - ValidateRoute.cleaned res)%nat
    /\ (ValidateRoute.cleaned res <= ValidateRoute.invalid res ->
        ValidateRoute.cleaned res' <= ValidateRoute.invalid res')%nat
    /\ (length (ValidateRoute.invalidKeys res') + ValidateRoute.invalid res
        = length (ValidateRoute.invalidKeys res) + ValidateRoute.invalid res')%nat
    /\ memoryCache w' = memoryCache w.
Proof.
  unfold ValidateRoute.check, ValidateRoute.ntry, ValidateRoute.nbind,
    ValidateRoute.lift, ValidateRoute.modify, redis_GET, redis_DEL, request,
    emit, update.
  destruct (redis_get client key (redis w)) as [[value|e] r1]; cbn.
  - destruct (ValidateRoute.isValid value); cbn.
    + eexists _, _. split; [reflexivity |]. cbn. repeat split; lia.
    + destruct (redis_del client [key] r1) as [[n|e] r2]; cbn.
      * eexists _, _. split; [reflexivity |]. cbn.
        rewrite length_app; cbn. repeat split; lia.
      * eexists _, _. split; [reflexivity |]. cbn.
        rewrite length_app; cbn. repeat split; lia.
  - eexists _, _. split; [reflexivity |]. cbn. repeat split; lia.
Qed.

Lemma for_of_counts keys : forall res w,
  exists res' w',
    ValidateRoute.for_of keys (ValidateRoute.check client) res w = (Return tt, res', w')
    /\ ValidateRoute.total res' = ValidateRoute.total res
    /\ (ValidateRoute.valid res' + ValidateRoute.cleaned res' + ValidateRoute.errors res'
        = length keys
          + (ValidateRoute.valid res + ValidateRoute.cleaned res + ValidateRoute.errors res))%nat
    /\ (ValidateRoute.cleaned res <= ValidateRoute.invalid res ->
        ValidateRoute.cleaned res' <= ValidateRoute.invalid res')%nat
    /\ (length (ValidateRoute.invalidKeys res') + ValidateRoute.invalid res
        = length (ValidateRoute.invalidKeys res) + ValidateRoute.invalid res')%nat
    /\ memoryCache w' = memoryCache w.
Proof.
  induction keys as [|key rest IH]; intros res w.
  - exists res, w. cbn. repeat split; lia.
  - destruct (check_counts key res w)
      as (res1 & w1 & Hstep & Ht1 & Hsum1 & _ & Hle1 & Hlen1 & Hm1).
    destruct (IH res1 w1) as (res2 & w2 & Hrest & Ht2 & Hsum2 & Hle2 & Hlen2 & Hm2).
    exists res2, w2. cbn [ValidateRoute.for_of].
    unfold ValidateRoute.nbind at 1. rewrite Hstep. cbn [length].
    split; [exact Hrest |]. repeat split; try lia; congruence.
Qed.

(** X24.  The validation route never raises and leaves the Local Tier alone;
    in its report every listed key is counted once, [total = valid + cleaned
    + errors], [cleaned <= invalid], and [invalid] is the length of
    [invalidKeys]. *)
Theorem validation_accounts_for_every_key w body :
  exists reply w',
    ValidateRoute.POST client body w = (Return reply, w')
    /\ memoryCache w' = memoryCache w
    /\ match reply with
       | ValidateRoute.Validated _ res =>
           (ValidateRoute.total res
            = ValidateRoute.valid res + ValidateRoute.cleaned res
              + ValidateRoute.errors res)%nat
           /\ (ValidateRoute.cleaned res <= ValidateRoute.invalid res)%nat
           /\ ValidateRoute.invalid res = length (ValidateRoute.invalidKeys res)
       | ValidateRoute.Failed => True
       end.
Proof.
  unfold ValidateRoute.POST, try_catch, bind, redis_KEYS, request, emit, update, ret.
  destruct body as [given|e]; cbn.
  - destruct (redis_keys client _ (redis w)) as [[keys|e] r1]; cbn.
    + match goal with |- context [ValidateRoute.for_of keys _ ?res ?w0] =>
        destruct (for_of_counts keys res w0)
          as (res' & w' & Hrun & Ht & Hsum & Hle & Hlen & Hm)
      end.
      rewrite Hrun. cbn in *.
      eexists _, _. split; [reflexivity |]. repeat split; try done; lia.
    + eexists _, _. split; [reflexivity |]. done.
  - eexists _, _. split; [reflexivity |]. done.
Qed.

End ValidateFacts.

Section SpeechFacts.

(** X25.  The speech route over [ServerCache]: after a request that missed
    the cache and generated audio stored at [later], the same request at any
    instant up to [later + 24 h] answers 200 with that audio from the cache,
    whatever the generator would now yield, and leaves the cache as it is. *)
Theorem speech_is_served_from_the_cache_for_a_day
    now later text voice instructions speech c audio again :
  nonempty text = true ->
  truthy (fst (ServerCache.get now (SpeechRoute.cacheKey text voice instructions) c))
    = false ->
  speech text (SpeechRoute.or_else "Speak naturally and professionally" instructions)
    (SpeechRoute.or_else "alloy" voice) = Return audio ->
  again <= later + 24 * 60 * 60 * 1000 ->
  exists c1 log,
    SpeechRoute.POST now later (Return (Some text, voice, instructions)) speech c
      = (Return {| status_code := 200; json := SpeechRoute.responseData audio |}, c1, log)
    /\ forall later' speech',
         SpeechRoute.POST again later' (Return (Some text, voice, instructions)) speech' c1
         = (Return {| status_code := 200; json := SpeechRoute.responseData audio |}, c1,
            [console_log ["[TTS API] Using cached audio response"]]).
Proof.
  intros Htext Hmiss Hspeech Hagain.
  unfold SpeechRoute.POST.
  change (default "" (Some text)) with text. rewrite Htext.
  destruct (ServerCache.get now (SpeechRoute.cacheKey text voice instructions) c)
    as [cached c0] eqn:Hget.
  cbn [fst] in Hmiss. rewrite Hmiss, Hspeech.
  eexists _, _. split; [reflexivity |].
  intros later' speech'.
  unfold ServerCache.get at 1, ServerCache.set at 1. cbn.
  rewrite lookup_insert_eq. cbn.
  assert ((later + 24 * 60 * 60 * 1000 <? again) = false) as ->
    by (apply Z.ltb_ge; lia).
  reflexivity.
Qed.

End SpeechFacts.

(** ** Concrete runs of the further properties *)

Lemma ServerCache_set_get_before_expiry_witness :
  Scenario.T0 + 3600000 <= Scenario.T0 + default (ServerCache.defaultTTL ServerCache.new) None
  /\ fst (ServerCache.get (Scenario.T0 + 3600000) "k"
            (ServerCache.set Scenario.T0 "k" (JStr "v") None ServerCache.new)) = JStr "v"
  /\ ServerCache.has (Scenario.T0 + 3600000) "k"
       (ServerCache.set Scenario.T0 "k" (JStr "v") None ServerCache.new) = true.
Proof.
  assert (Hlive : Scenario.T0 + 3600000
                  <= Scenario.T0 + default (ServerCache.defaultTTL ServerCache.new) None)
    by (vm_compute; discriminate).
  split; [exact Hlive |].
  destruct (ServerCache_set_get_before_expiry ServerCache.new Scenario.T0 "k"
              (JStr "v") None (Scenario.T0 + 3600000) Hlive) as (Hget & Hhas & _).
  rewrite Hget. split; [reflexivity | exact Hhas].
Defined.



Lemma ServerCache_cleanup_is_invisible_witness :
  let c := ServerCache.set Scenario.T0 "old" (JStr "o") (Some 10)
             (ServerCache.set Scenario.T0 "new" (JStr "n") (Some 5000) ServerCache.new) in
  Scenario.T0 + 1000 <= Scenario.T0 + 2000
  /\ ServerCache.cache (ServerCache.cleanup (Scenario.T0 + 1000) c) !! "old" = None
  /\ ServerCache.has (Scenario.T0 + 2000) "new" (ServerCache.cleanup (Scenario.T0 + 1000) c)
     = ServerCache.has (Scenario.T0 + 2000) "new" c.
Proof.
  cbv zeta.
  assert (Hlater : Scenario.T0 + 1000 <= Scenario.T0 + 2000) by lia.
  split; [exact Hlater |]. split; [vm_compute; reflexivity |].
  exact (proj1 (ServerCache_cleanup_is_invisible _ _ "new" _ Hlater)).
Defined.

Lemma ServerCache_delete_and_clear_forget_witness :
  let c := ServerCache.set Scenario.T0 "a" (JStr "x") None
             (ServerCache.set Scenario.T0 "b" (JStr "y") None ServerCache.new) in
  "b" <> "a"
  /\ ServerCache.has Scenario.T0 "a" (ServerCache.delete "a" c) = false
  /\ ServerCache.has Scenario.T0 "b" (ServerCache.delete "a" c)
     = ServerCache.has Scenario.T0 "b" c.
Proof.
  cbv zeta.
  assert (Hother : "b" <> "a") by discriminate.
  split; [exact Hother |].
  destruct (ServerCache_delete_and_clear_forget
              (ServerCache.set Scenario.T0 "a" (JStr "x") None
                 (ServerCache.set Scenario.T0 "b" (JStr "y") None ServerCache.new))
              Scenario.T0 "a") as [(_ & Hgone & Hkept) _].
  split; [exact Hgone | exact (proj1 (Hkept "b" Hother))].
Defined.

Lemma has_asks_EXISTS_on_a_local_miss_only_witness :
  let w := Scenario.redisCache Cases.stocked in
  memoryCache w !! "repo:a/b" = None
  /\ isRedisAvailable (this w) = true
  /\ exists w',
       has Double.client "repo:a/b" w = (Return true, w')
       /\ memoryCache w' = memoryCache w.
Proof.
  cbv zeta. split; [reflexivity |]. split; [reflexivity |].
  destruct (proj2 (proj2 (has_asks_EXISTS_on_a_local_miss_only Double.client
                            (Scenario.redisCache Cases.stocked) "repo:a/b"))
              eq_refl eq_refl (Return 1) _ eq_refl)
    as (w' & Hhas & Hm & _).
  exists w'. split; [exact Hhas | exact Hm].
Defined.

Lemma delete_removes_locally_whatever_the_tier_does_witness :
  let w := snd (set Double.client "k" (JStr "v") None
                  (Scenario.redisCache Cases.delete_refused_later)) in
  isRedisAvailable (this w) = true
  /\ isReadOnly (this w) = false
  /\ exists b w',
       delete Double.client "k" w = (Return b, w')
       /\ memoryCache w' = base.delete "k" (memoryCache w)
       /\ b = false
       /\ isReadOnly (this w') = true.
Proof.
  cbv zeta.
  assert (Hav : isRedisAvailable
                  (this (snd (set Double.client "k" (JStr "v") None
                                (Scenario.redisCache Cases.delete_refused_later)))) = true)
    by reflexivity.
  assert (Hro : isReadOnly
                  (this (snd (set Double.client "k" (JStr "v") None
                                (Scenario.redisCache Cases.delete_refused_later)))) = false)
    by reflexivity.
  split; [exact Hav |]. split; [exact Hro |].
  destruct (delete_removes_locally_whatever_the_tier_does Double.client
              (snd (set Double.client "k" (JStr "v") None
                      (Scenario.redisCache Cases.delete_refused_later))) "k")
    as (b & w' & Hdel & Hm & _ & Hsent).
  destruct (Hsent Hav Hro (Throw (Scenario.noperm "del")) _ eq_refl)
    as (_ & _ & Hb & Hflag).
  exists b, w'. repeat split; assumption.
Defined.

Lemma deleted_key_returns_in_read_only_mode_witness :
  let w := Scenario.redisCache Cases.stocked_read_only in
  isReadOnly (this w) = true
  /\ exists w1 w2,
       delete Double.client "repo:a/b" w = (Return true, w1)
       /\ get Double.client "repo:a/b" w1 = (Return (JStr "graph"), w2).
Proof.
  cbv zeta. split; [reflexivity |].
  destruct (deleted_key_returns_in_read_only_mode Double.client
              (Scenario.redisCache Cases.stocked_read_only) "repo:a/b" (JStr "graph") _
              eq_refl eq_refl eq_refl eq_refl eq_refl)
    as (w1 & w2 & Hdel & _ & Hget & _).
  exists w1, w2. split; assumption.
Defined.

Lemma get_back_fills_truthy_hits_witness :
  let w := Scenario.redisCache Cases.stocked in
  memoryCache w !! "repo:a/b" = None
  /\ exists w1 w2,
       get Double.client "repo:a/b" w = (Return (JStr "graph"), w1)
       /\ get Double.client "repo:a/b" w1 = (Return (JStr "graph"), w2)
       /\ calls w2 = calls w1.
Proof.
  cbv zeta. split; [reflexivity |].
  destruct (get_back_fills_truthy_hits Double.client
              (Scenario.redisCache Cases.stocked) "repo:a/b" (JStr "graph") _
              eq_refl eq_refl eq_refl eq_refl)
    as (w1 & Hget & _ & _ & _ & Hagain).
  destruct (Hagain eq_refl) as (w2 & Hget2 & Hcalls).
  exists w1, w2. repeat split; assumption.
Defined.

Lemma set_undefined_stays_local_witness :
  let w := Scenario.redisCache Double.healthy in
  isRedisAvailable (this w) = true
  /\ isReadOnly (this w) = false
  /\ exists w1 w2,
       set Double.client "k" JUndefined (Some 60) w = (Return false, w1)
       /\ calls w1 = calls w
       /\ has Double.client "k" w1 = (Return true, w2).
Proof.
  cbv zeta. split; [reflexivity |]. split; [reflexivity |].
  destruct (set_undefined_stays_local Double.client (Scenario.redisCache Double.healthy)
              "k" (Some 60) eq_refl eq_refl)
    as (w1 & w2 & Hset & Hcalls & _ & _ & Hhas).
  exists w1, w2. repeat split; assumption.
Defined.

Lemma clear_deletes_what_KEYS_listed_witness :
  let w := Scenario.redisCache Cases.stocked in
  fst (Double.keys "monocloud:repo:*" (redis w)) = Return ["monocloud:repo:a/b"]
  /\ exists w',
       clear Double.client (Some "repo:*") w = (Return true, w')
       /\ calls w' = (calls w ++ [KEYS "monocloud:repo:*"; DEL ["monocloud:repo:a/b"]])%list.
Proof.
  cbv zeta. split; [reflexivity |].
  destruct (proj2 (clear_deletes_what_KEYS_listed Double.client
                     (Scenario.redisCache Cases.stocked) (Some "repo:*")
                     ["monocloud:repo:a/b"] _ eq_refl eq_refl eq_refl eq_refl)
              ltac:(discriminate) (Return 1) _ eq_refl)
    as (w' & Hclear & _ & Hcalls).
  exists w'. split; assumption.
Defined.


Lemma write_test_fails_closed_witness :
  isReadOnly
    (this (snd (probe_write Double.client "monocloud:_connection_test_write"
                  (initial (fresh "monocloud:" 86400) Double.healthy Scenario.T0 false))))
  = false
  /\ isReadOnly
       (this (snd (probe_write Double.client "monocloud:_connection_test_write"
                     (initial (fresh "monocloud:" 86400) Scenario.read_only_token
                        Scenario.T0 false))))
     = true.
Proof.
  split.
  - pose proof (write_test_fails_closed Double.client
                  (initial (fresh "monocloud:" 86400) Double.healthy Scenario.T0 false)
                  "monocloud:_connection_test_write" (Return tt) _ (Return 1) _
                  eq_refl eq_refl) as H.
    vm_compute in H. vm_compute. exact H.
  - pose proof (write_test_fails_closed Double.client
                  (initial (fresh "monocloud:" 86400) Scenario.read_only_token
                     Scenario.T0 false)
                  "monocloud:_connection_test_write" (Throw (Scenario.noperm "set")) _
                  (Throw (Scenario.noperm "del")) _ eq_refl eq_refl) as H.
    vm_compute in H. vm_compute. exact H.
Defined.

Lemma probe_runs_at_most_once_per_interval_witness :
  let w := initial (fresh "monocloud:" 86400) Double.healthy Scenario.T0 false in
  connectionCheckInterval (this w) <= clock w - lastConnectionCheck (this w)
  /\ 0 <= 59999 < connectionCheckInterval (this w)
  /\ exists caps w1,
       checkRedisConnection Double.client w = (Return caps, w1)
       /\ checkRedisConnection Double.client (advance 59999 w1)
          = (Return caps, advance 59999 w1).
Proof.
  cbv zeta.
  assert (Hdue : 60000 <= Scenario.T0 - 0) by (vm_compute; discriminate).
  assert (Hdt : 0 <= 59999 < 60000) by lia.
  split; [exact Hdue |]. split; [exact Hdt |].
  exact (probe_runs_at_most_once_per_interval Double.client
           (initial (fresh "monocloud:" 86400) Double.healthy Scenario.T0 false)
           59999 Hdue Hdt).
Defined.

Lemma getStatus_counts_keys_when_permitted_witness :
  let w := snd (set Double.client "k" (JStr "v") None (Scenario.redisCache Cases.stocked)) in
  clock w - lastConnectionCheck (this w) < connectionCheckInterval (this w)
  /\ exists st w',
       getStatus Double.client w = (Return st, w')
       /\ keysCount st = 2%nat
       /\ memoryKeysCount st = 1%nat.
Proof.
  cbv zeta.
  assert (Hfresh : clock (snd (set Double.client "k" (JStr "v") None
                                 (Scenario.redisCache Cases.stocked)))
                   - lastConnectionCheck
                       (this (snd (set Double.client "k" (JStr "v") None
                                     (Scenario.redisCache Cases.stocked))))
                   < connectionCheckInterval
                       (this (snd (set Double.client "k" (JStr "v") None
                                     (Scenario.redisCache Cases.stocked)))))
    by (vm_compute; reflexivity).
  split; [exact Hfresh |].
  destruct (proj2 (getStatus_counts_keys_when_permitted Double.client _ Hfresh)
              eq_refl eq_refl
              (Return (List.filter (Double.glob "monocloud:*")
                         (map fst (map_to_list
                            (Double.store
                               (redis (snd (set Double.client "k" (JStr "v") None
                                              (Scenario.redisCache Cases.stocked)))))))))
              _ eq_refl)
    as (st & w' & Hst & _ & Hcount & _ & Hmem).
  exists st, w'. split; [exact Hst |]. split; [exact Hcount | exact Hmem].
Defined.

Lemma analyzeRepository_memoizes_witness :
  let first :=
    Actions.analyzeRepository Double.client Cases.toLowerCase Cases.trim Cases.analyzed
      "https://github.com/Vercel/Turborepo " (Scenario.redisCache Scenario.unreachable) in
  fst first = Return (Actions.Analysis Cases.graph false)
  /\ truthy Cases.graph = true
  /\ Cases.trim (Cases.toLowerCase "  https://GitHub.com/vercel/turborepo")
     = Cases.trim (Cases.toLowerCase "https://github.com/Vercel/Turborepo ")
  /\ exists w2,
       Actions.analyzeRepository Double.client Cases.toLowerCase Cases.trim
         Cases.rate_limited "  https://GitHub.com/vercel/turborepo" (snd first)
       = (Return (Actions.Analysis Cases.graph true), w2)
       /\ calls w2 = calls (snd first).
Proof.
  cbv zeta.
  assert (Hfirst :
    Actions.analyzeRepository Double.client Cases.toLowerCase Cases.trim Cases.analyzed
      "https://github.com/Vercel/Turborepo " (Scenario.redisCache Scenario.unreachable)
    = (Return (Actions.Analysis Cases.graph false),
       snd (Actions.analyzeRepository Double.client Cases.toLowerCase Cases.trim
              Cases.analyzed "https://github.com/Vercel/Turborepo "
              (Scenario.redisCache Scenario.unreachable))))
    by (vm_compute; reflexivity).
  assert (Hsame : Cases.trim (Cases.toLowerCase "  https://GitHub.com/vercel/turborepo")
                  = Cases.trim (Cases.toLowerCase "https://github.com/Vercel/Turborepo "))
    by (vm_compute; reflexivity).
  split; [rewrite Hfirst; reflexivity |]. split; [reflexivity |]. split; [exact Hsame |].
  destruct (analyzeRepository_memoizes Double.client Cases.toLowerCase Cases.trim
              Cases.analyzed _ _ _ _ Hfirst eq_refl
              "  https://GitHub.com/vercel/turborepo" Cases.rate_limited Hsame)
    as (w2 & Hrun & Hcalls & _).
  exists w2. split; assumption.
Defined.


Lemma clear_cache_route_ignores_the_pattern_without_KEYS_witness :
  let w := snd (set Double.client "k" (JStr "v") None
                  (Scenario.redisCache Scenario.keys_refused)) in
  clock w - lastConnectionCheck (this w) < connectionCheckInterval (this w)
  /\ keysCommandAllowed (this w) = false
  /\ size (memoryCache w) = 1%nat
  /\ exists response w',
       ClearCacheRoute.POST Double.client (Return (Some "repo:*")) w = (Return response, w')
       /\ status_code response = 200
       /\ memoryCache w' = ∅
       /\ calls w' = calls w.
Proof.
  cbv zeta.
  assert (Hfresh : clock (snd (set Double.client "k" (JStr "v") None
                                 (Scenario.redisCache Scenario.keys_refused)))
                   - lastConnectionCheck
                       (this (snd (set Double.client "k" (JStr "v") None
                                     (Scenario.redisCache Scenario.keys_refused))))
                   < connectionCheckInterval
                       (this (snd (set Double.client "k" (JStr "v") None
                                     (Scenario.redisCache Scenario.keys_refused)))))
    by (vm_compute; reflexivity).
  split; [exact Hfresh |]. split; [reflexivity |]. split; [reflexivity |].
  destruct (clear_cache_route_ignores_the_pattern_without_KEYS Double.client _
              (Some "repo:*") Hfresh eq_refl eq_refl) as (w' & Hrun & Hm & Hc).
  eexists _, w'. split; [exact Hrun |]. repeat split; assumption.
Defined.

Lemma key_route_takes_bare_and_prefixed_keys_witness :
  let w := Scenario.redisCache Cases.stocked in
  nonempty "repo:a/b" = true
  /\ String.prefix "monocloud:" "repo:a/b" = false
  /\ (exists response w',
        KeyRoute.GET Double.client (Some "repo:a/b") w = (Return response, w')
        /\ calls w' = (calls w ++ [GET "monocloud:repo:a/b"])%list)
  /\ (exists response w',
        KeyRoute.GET Double.client (Some "monocloud:repo:a/b") w = (Return response, w')
        /\ calls w' = (calls w ++ [GET "monocloud:repo:a/b"])%list).
Proof.
  cbv zeta.
  assert (Hk : nonempty "repo:a/b" = true) by reflexivity.
  assert (Hbare : String.prefix "monocloud:" "repo:a/b" = false) by reflexivity.
  split; [exact Hk |]. split; [exact Hbare |]. split.
  - destruct (key_route_takes_bare_and_prefixed_keys Double.client
                (Scenario.redisCache Cases.stocked) "repo:a/b" Hk Hbare
                "repo:a/b" (or_introl eq_refl)) as (response & w' & Hrun & Hc & _).
    exists response, w'. split; assumption.
  - destruct (key_route_takes_bare_and_prefixed_keys Double.client
                (Scenario.redisCache Cases.stocked) "repo:a/b" Hk Hbare
                "monocloud:repo:a/b" (or_intror eq_refl)) as (response & w' & Hrun & Hc & _).
    exists response, w'. split; assumption.
Defined.

Lemma key_route_DELETE_leaves_the_local_copy_witness :
  let w := snd (set Double.client "repo:a/b" (JStr "graph") None
                  (Scenario.redisCache Double.healthy)) in
  nonempty "repo:a/b" = true
  /\ memoryCache w !! "repo:a/b" = Some (JStr "graph")
  /\ exists response w1 w2,
       KeyRoute.DELETE Double.client (Return (Some "repo:a/b")) w = (Return response, w1)
       /\ get Double.client "repo:a/b" w1 = (Return (JStr "graph"), w2).
Proof.
  cbv zeta.
  assert (Hhit : memoryCache (snd (set Double.client "repo:a/b" (JStr "graph") None
                                     (Scenario.redisCache Double.healthy)))
                 !! "repo:a/b" = Some (JStr "graph")) by (vm_compute; reflexivity).
  split; [reflexivity |]. split; [exact Hhit |].
  destruct (key_route_DELETE_leaves_the_local_copy Double.client _ "repo:a/b" "repo:a/b"
              (JStr "graph") eq_refl Hhit)
    as (response & w1 & w2 & Hrun & _ & _ & Hget & _).
  exists response, w1, w2. split; assumption.
Defined.

Lemma speech_is_served_from_the_cache_for_a_day_witness :
  nonempty "Hello" = true
  /\ Scenario.T0 + 86400000 <= Scenario.T0 + 500 + 24 * 60 * 60 * 1000
  /\ exists c1 log,
       SpeechRoute.POST Scenario.T0 (Scenario.T0 + 500) (Return (Some "Hello", None, None))
         Cases.voiced ServerCache.new
       = (Return {| status_code := 200; json := SpeechRoute.responseData "SUQzBAAAAAAA" |},
          c1, log)
       /\ SpeechRoute.POST (Scenario.T0 + 86400000) (Scenario.T0 + 86400900)
            (Return (Some "Hello", None, None))
            (fun _ _ _ => Throw (ErrorObject "quota exceeded")) c1
          = (Return {| status_code := 200;
                       json := SpeechRoute.responseData "SUQzBAAAAAAA" |}, c1,
             [console_log ["[TTS API] Using cached audio response"]]).
Proof.
  assert (Hagain : Scenario.T0 + 86400000 <= Scenario.T0 + 500 + 24 * 60 * 60 * 1000)
    by (vm_compute; discriminate).
  split; [reflexivity |]. split; [exact Hagain |].
  destruct (speech_is_served_from_the_cache_for_a_day Scenario.T0 (Scenario.T0 + 500)
              "Hello" None None Cases.voiced ServerCache.new "SUQzBAAAAAAA"
              (Scenario.T0 + 86400000) eq_refl eq_refl eq_refl Hagain)
    as (c1 & log & Hrun & Hcached).
  exists c1, log. split; [exact Hrun |].
  exact (Hcached (Scenario.T0 + 86400900)
           (fun _ _ _ => Throw (ErrorObject "quota exceeded"))).
Defined.
